(** * crypto-price skill: the price lookup with search fallback

    A shallow embedding of [workspace/skills/crypto-price/__init__.py].
    The skill is one Python function, [crypto_price], that asks an HTTP
    price service for the USD price of a token, falls back to the service's
    search endpoint when the token is not a known identifier, and turns
    every exception into a dictionary with an ["error"] entry.

    The function works on loosely typed JSON data, so the embedding
    carries a model of the Python values that [Response.json()] can
    produce, of the three operators the function applies to them
    ([in], subscription and truth testing) and of the exceptions those
    operators raise.  The HTTP service is a state machine the function
    talks to through [requests.get]. *)

From Stdlib Require Import ZArith Bool List String Ascii DecimalString Lia.
From Stdlib Require Import SpecFloat.
Import ListNotations.

Local Open Scope string_scope.
Local Open Scope Z_scope.

(** ** Python values *)

Module Py.

(** The values [json.loads] builds: [None], [bool], [int], [float], [str],
    [list] and [dict] with [str] keys.  A dictionary keeps its insertion
    order, so it is an association list; [lookup] takes the first binding
    of a key.  A character of a Python string is one [ascii] here. *)
#[local] Unset Elimination Schemes.
Inductive pyval : Type :=
| PNone
| PBool (b : bool)
| PInt (z : Z)
| PFloat (f : spec_float)
| PStr (s : string)
| PList (l : list pyval)
| PDict (d : list (string * pyval)).
#[local] Set Elimination Schemes.

Fixpoint lookup {A : Type} (k : string) (d : list (string * A)) : option A :=
  match d with
  | [] => None
  | (k', v) :: d' => if String.eqb k k' then Some v else lookup k d'
  end.

(** [type(v).__name__], as it appears in the interpreter's messages. *)
Definition type_name (v : pyval) : string :=
  match v with
  | PNone => "NoneType"
  | PBool _ => "bool"
  | PInt _ => "int"
  | PFloat _ => "float"
  | PStr _ => "str"
  | PList _ => "list"
  | PDict _ => "dict"
  end.

(** What the language runtime supplies and the skill only calls:
    [str.lower] (Unicode case mapping), [repr] of a [float] (the shortest
    decimal that reads back as the same double) and [repr] of a [str]
    (quoting and escaping). *)
Class Runtime : Type := {
  str_lower : string -> string;
  float_repr : spec_float -> string;
  str_repr : string -> string
}.

(** *** Numbers and equality *)

(** A finite float is [m * 2^e]; [bool] is a subclass of [int]. *)
Definition float_exact (f : spec_float) : option (Z * Z) :=
  match f with
  | S754_zero _ => Some (0, 0)
  | S754_finite s m e => Some (if s then Z.neg m else Z.pos m, e)
  | S754_infinity _ | S754_nan => None
  end.

Definition exact_eqb (a b : Z * Z) : bool :=
  let (m1, e1) := a in
  let (m2, e2) := b in
  let e := Z.min e1 e2 in
  (m1 * 2 ^ (e1 - e)) =? (m2 * 2 ^ (e2 - e)).

(** Two floats decoded from JSON are the same object or equal:
    [json.loads] gives one and the same object for every [NaN] it reads,
    so a NaN, which equals nothing, is still identical to a NaN. *)
Definition float_eqb (f g : spec_float) : bool :=
  match float_exact f, float_exact g with
  | Some a, Some b => exact_eqb a b
  | None, None =>
      match f, g with
      | S754_infinity s, S754_infinity t => Bool.eqb s t
      | S754_nan, S754_nan => true
      | _, _ => false
      end
  | _, _ => false
  end.

Definition float_int_eqb (f : spec_float) (z : Z) : bool :=
  match float_exact f with
  | Some a => exact_eqb a (z, 0)
  | None => false
  end.

Definition int_of_bool (b : bool) : Z := if b then 1 else 0.

(** [a is b or a == b], the comparison that [in] makes of an item and
    that lists and dictionaries make of their items.  Numbers compare by
    value across [bool], [int] and [float] (and a NaN is found where it
    occurs, see [float_eqb]), lists element by element, dictionaries as
    maps. *)
Fixpoint py_eq (a b : pyval) {struct a} : bool :=
  match a, b with
  | PNone, PNone => true
  | PBool x, PBool y => Bool.eqb x y
  | PBool x, PInt y => int_of_bool x =? y
  | PBool x, PFloat y => float_int_eqb y (int_of_bool x)
  | PInt x, PBool y => x =? int_of_bool y
  | PInt x, PInt y => x =? y
  | PInt x, PFloat y => float_int_eqb y x
  | PFloat x, PBool y => float_int_eqb x (int_of_bool y)
  | PFloat x, PInt y => float_int_eqb x y
  | PFloat x, PFloat y => float_eqb x y
  | PStr x, PStr y => String.eqb x y
  | PList l1, PList l2 =>
      (fix all2 (l1 l2 : list pyval) {struct l1} : bool :=
         match l1, l2 with
         | [], [] => true
         | x :: l1', y :: l2' => py_eq x y && all2 l1' l2'
         | _, _ => false
         end) l1 l2
  | PDict d1, PDict d2 =>
      Nat.eqb (List.length d1) (List.length d2) &&
      (fix sub (d : list (string * pyval)) {struct d} : bool :=
         match d with
         | [] => true
         | (k, v) :: d' =>
             match lookup k d2 with
             | Some w => py_eq v w && sub d'
             | None => false
             end
         end) d1
  | _, _ => false
  end.

(** *** Truth value, [str] and [repr] *)

(** [bool(v)]: what an [if] or an [and] tests. *)
Definition truthy (v : pyval) : bool :=
  match v with
  | PNone => false
  | PBool b => b
  | PInt z => negb (z =? 0)
  | PFloat f => match f with S754_zero _ => false | _ => true end
  | PStr s => negb (String.eqb s "")
  | PList l => match l with [] => false | _ => true end
  | PDict d => match d with [] => false | _ => true end
  end.

Definition int_str (z : Z) : string := NilZero.string_of_int (Z.to_int z).

Fixpoint join (sep : string) (l : list string) : string :=
  match l with
  | [] => ""
  | [x] => x
  | x :: l' => x ++ sep ++ join sep l'
  end.

(** *** Exceptions *)

(** The exception classes the skill's two handlers tell apart.
    [RequestException] stands for [requests.exceptions.RequestException]
    and every subclass of it ([ConnectionError], [Timeout], [HTTPError],
    [InvalidURL], ...); [OtherException] for any other subclass of
    [Exception] that is not one of the three built-in classes the
    operators below raise. *)
Inductive exn : Type :=
| KeyError (key : pyval)
| IndexError (msg : string)
| TypeError (msg : string)
| RequestException (msg : string)
| OtherException (msg : string).

(** [isinstance(e, requests.exceptions.RequestException)] *)
Definition is_RequestException (e : exn) : bool :=
  match e with
  | RequestException _ => true
  | _ => false
  end.

Inductive result (A : Type) : Type :=
| Ok (a : A)
| Raise (e : exn).
Arguments Ok {A} a.
Arguments Raise {A} e.

Section WithRuntime.
Context {RT : Runtime}.

Fixpoint py_repr (v : pyval) : string :=
  match v with
  | PNone => "None"
  | PBool b => if b then "True" else "False"
  | PInt z => int_str z
  | PFloat f => float_repr f
  | PStr s => str_repr s
  | PList l => "[" ++ join ", " (map py_repr l) ++ "]"
  | PDict d =>
      "{" ++ join ", " (map (fun '(k, x) => str_repr k ++ ": " ++ py_repr x) d)
          ++ "}"
  end.

(** [format(v, "")], what an f-string replacement field [{v}] inserts:
    the string itself for a [str], the [repr] otherwise. *)
Definition py_str (v : pyval) : string :=
  match v with
  | PStr s => s
  | _ => py_repr v
  end.

(** [str(e)]: the message, and for a [KeyError] the [repr] of the key. *)
Definition exc_str (e : exn) : string :=
  match e with
  | KeyError k => py_repr k
  | IndexError msg | TypeError msg | RequestException msg
  | OtherException msg => msg
  end.

End WithRuntime.

(** *** The operators [in] and [[]] *)

Fixpoint is_substring (sub s : string) : bool :=
  String.prefix sub s ||
  match s with
  | EmptyString => false
  | String _ s' => is_substring sub s'
  end.

(** Lists and dictionaries cannot be hashed. *)
Definition hashable (v : pyval) : bool :=
  match v with
  | PList _ | PDict _ => false
  | _ => true
  end.

(** [x in c].  The keys of a dictionary built from JSON are strings, so
    only a string can be found in it; a list is searched with [==]; a
    string is searched for a substring.  The messages are those of
    CPython 3.12; nothing below depends on their wording. *)
Definition py_in (x c : pyval) : result bool :=
  match c with
  | PDict d =>
      if hashable x then
        Ok match x with
           | PStr k => match lookup k d with Some _ => true | None => false end
           | _ => false
           end
      else Raise (TypeError ("unhashable type: '" ++ type_name x ++ "'"))
  | PList l => Ok (existsb (fun y => py_eq y x) l)
  | PStr s =>
      match x with
      | PStr sub => Ok (is_substring sub s)
      | _ => Raise (TypeError ("'in <string>' requires string as left operand, not "
                               ++ type_name x))
      end
  | _ => Raise (TypeError ("argument of type '" ++ type_name c
                           ++ "' is not iterable"))
  end.

(** The position a subscript denotes in a sequence of length [n]:
    a [bool] is an [int], a negative index counts from the end. *)
Definition as_index (k : pyval) : option Z :=
  match k with
  | PInt z => Some z
  | PBool b => Some (int_of_bool b)
  | _ => None
  end.

Definition position (i : Z) (n : nat) : option nat :=
  let j := if i <? 0 then i + Z.of_nat n else i in
  if (0 <=? j) && (j <? Z.of_nat n) then Some (Z.to_nat j) else None.

(** [c[k]] *)
Definition py_getitem (c k : pyval) : result pyval :=
  match c with
  | PDict d =>
      if hashable k then
        match k with
        | PStr s => match lookup s d with Some v => Ok v | None => Raise (KeyError k) end
        | _ => Raise (KeyError k)
        end
      else Raise (TypeError ("unhashable type: '" ++ type_name k ++ "'"))
  | PList l =>
      match as_index k with
      | Some i =>
          match position i (List.length l) with
          | Some n =>
              match nth_error l n with
              | Some v => Ok v
              | None => Raise (IndexError "list index out of range")
              end
          | None => Raise (IndexError "list index out of range")
          end
      | None => Raise (TypeError ("list indices must be integers or slices, not "
                                  ++ type_name k))
      end
  | PStr s =>
      match as_index k with
      | Some i =>
          match position i (String.length s) with
          | Some n =>
              match String.get n s with
              | Some ch => Ok (PStr (String ch EmptyString))
              | None => Raise (IndexError "string index out of range")
              end
          | None => Raise (IndexError "string index out of range")
          end
      | None => Raise (TypeError ("string indices must be integers, not '"
                                  ++ type_name k ++ "'"))
      end
  | _ => Raise (TypeError ("'" ++ type_name c ++ "' object is not subscriptable"))
  end.

End Py.

Import Py.

(** ** A runtime for ASCII text

    An instance of [Py.Runtime] to run the model on.  It agrees with
    CPython on strings of ASCII characters and on the floats whose exact
    decimal expansion is short (at most 15 significant digits, magnitude
    in [[1e-4, 1e16)]), which CPython prints in full. *)

Module AsciiRuntime.

Definition lower_char (c : ascii) : ascii :=
  let n := N_of_ascii c in
  if ((65 <=? n) && (n <=? 90))%N then ascii_of_N (n + 32) else c.

Fixpoint lower (s : string) : string :=
  match s with
  | EmptyString => EmptyString
  | String c s' => String (lower_char c) (lower s')
  end.

Fixpoint has_char (c : ascii) (s : string) : bool :=
  match s with
  | EmptyString => false
  | String c' s' => Ascii.eqb c c' || has_char c s'
  end.

Definition hex_digit (n : N) : ascii :=
  if (n <? 10)%N then ascii_of_N (48 + n) else ascii_of_N (87 + n).

Definition escape_char (quote c : ascii) : string :=
  let n := N_of_ascii c in
  if Ascii.eqb c quote || Ascii.eqb c "\"%char then String "\"%char (String c "")
  else if (n =? 10)%N then "\n"
  else if (n =? 13)%N then "\r"
  else if (n =? 9)%N then "\t"
  else if ((n <? 32) || (n =? 127))%N then
    String "\"%char (String "x"%char
      (String (hex_digit (n / 16)) (String (hex_digit (n mod 16)) "")))
  else String c "".

Fixpoint escape (quote : ascii) (s : string) : string :=
  match s with
  | EmptyString => EmptyString
  | String c s' => escape_char quote c ++ escape quote s'
  end.

Definition double_quote : ascii := ascii_of_N 34.
Definition single_quote : ascii := "'"%char.

Definition repr_str (s : string) : string :=
  let q := if has_char single_quote s && negb (has_char double_quote s)
           then double_quote else single_quote in
  String q (escape q s ++ String q "").

Fixpoint strip_zeros (fuel : nat) (frac : Z) (digits : Z) : Z * Z :=
  match fuel with
  | O => (frac, digits)
  | S fuel' =>
      if (1 <? digits) && (frac mod 10 =? 0)
      then strip_zeros fuel' (frac / 10) (digits - 1)
      else (frac, digits)
  end.

Fixpoint zeros (n : nat) : string :=
  match n with
  | O => ""
  | S n' => "0" ++ zeros n'
  end.

(** [s] with zeros in front, up to [width] characters. *)
Definition pad_zeros (width : nat) (s : string) : string :=
  zeros (width - String.length s) ++ s.

Definition repr_finite (m : positive) (e : Z) : string :=
  if 0 <=? e then int_str (Z.pos m * 2 ^ e) ++ ".0"
  else
    let k := - e in
    let whole := Z.pos m / 2 ^ k in
    let '(frac, digits) :=
      strip_zeros (Z.to_nat k) ((Z.pos m mod 2 ^ k) * 5 ^ k) k in
    int_str whole ++ "." ++ pad_zeros (Z.to_nat digits) (int_str frac).

Definition repr_float (f : spec_float) : string :=
  match f with
  | S754_zero s => if s then "-0.0" else "0.0"
  | S754_infinity s => if s then "-inf" else "inf"
  | S754_nan => "nan"
  | S754_finite s m e => (if s then "-" else "") ++ repr_finite m e
  end.

#[export] Instance ascii_runtime : Runtime :=
  {| str_lower := lower; float_repr := repr_float; str_repr := repr_str |}.

End AsciiRuntime.

(** ** The HTTP client

    What the skill sees of the [requests] library.  [requests.get(url)]
    either raises or returns a [Response]; of a response the skill calls
    [raise_for_status()], which raises [HTTPError], a subclass of
    [RequestException], when the status code is a client error (4xx) or
    a server error (5xx) and does nothing for any other code, and
    [json()], which returns the decoded body or raises the decoding
    error of the installed library version. *)

Module Requests.

(** The status line of the response and the URL it came from, which
    [raise_for_status()] reads; [body] is what [json()] returns or
    raises. *)
Record Response : Type := {
  status_code : Z;
  reason : string;
  url : string;
  body : result pyval
}.

(** The message of the [HTTPError] that [raise_for_status()] raises, if
    it raises. *)
Definition http_error (r : Response) : option string :=
  if (400 <=? status_code r) && (status_code r <? 500) then
    Some (int_str (status_code r) ++ " Client Error: " ++ reason r
            ++ " for url: " ++ url r)
  else if (500 <=? status_code r) && (status_code r <? 600) then
    Some (int_str (status_code r) ++ " Server Error: " ++ reason r
            ++ " for url: " ++ url r)
  else None.

Section Client.
Variable Upstream : Type.
Variable respond : Upstream -> string -> result Response * Upstream.

(** The skill runs against the state of the service and leaves a log of
    its exchanges with it: each URL requested and what [requests.get]
    gave for it, oldest first. *)
Record world : Type := {
  upstream : Upstream;
  exchanges : list (string * result Response)
}.

Definition requested (w : world) : list string := map fst (exchanges w).

(** Computations that may raise and may talk to the service. *)
Definition M (A : Type) : Type := world -> result A * world.

Definition ret {A : Type} (a : A) : M A := fun w => (Ok a, w).

Definition lift {A : Type} (r : result A) : M A := fun w => (r, w).

Definition bind {A B : Type} (c : M A) (k : A -> M B) : M B :=
  fun w =>
    match c w with
    | (Ok a, w') => k a w'
    | (Raise e, w') => (Raise e, w')
    end.

(** [a and b] under an [if]: [b] is evaluated only when [a] is true. *)
Definition and_then (a b : M bool) : M bool :=
  bind a (fun x => if x then b else ret false).

Definition get (url : string) : M Response :=
  fun w =>
    let (r, s) := respond (upstream w) url in
    (r, {| upstream := s; exchanges := exchanges w ++ [(url, r)] |}).

Definition raise_for_status (r : Response) : M unit :=
  match http_error r with
  | Some msg => lift (Raise (RequestException msg))
  | None => ret tt
  end.

Definition json (r : Response) : M pyval := lift (body r).

(** The operators of [Py] as computations. *)
Definition contains (x c : pyval) : M bool := lift (py_in x c).

Definition item (c k : pyval) : M pyval := lift (py_getitem c k).

Definition test (v : pyval) : M bool := ret (truthy v).

End Client.

Arguments upstream {Upstream} w.
Arguments exchanges {Upstream} w.
Arguments requested {Upstream} w.
Arguments ret {Upstream A} a.
Arguments lift {Upstream A} r.
Arguments bind {Upstream A B} c k.
Arguments and_then {Upstream} a b.
Arguments raise_for_status {Upstream} r.
Arguments json {Upstream} r.
Arguments contains {Upstream} x c.
Arguments item {Upstream} c k.
Arguments test {Upstream} v.

End Requests.

Import Requests.

Declare Scope py_scope.
Delimit Scope py_scope with py.
Notation "x <- c ;; k" := (bind c (fun x => k))
  (at level 61, c at next level, right associativity) : py_scope.
Notation "c ;; k" := (bind c (fun _ => k))
  (at level 61, right associativity) : py_scope.

(** ** The skill *)

Module Skill.

Definition price_url (id : string) : string :=
  "https://api.coingecko.com/api/v3/simple/price?ids=" ++ id
    ++ "&vs_currencies=usd".

Definition search_url (query : string) : string :=
  "https://api.coingecko.com/api/v3/search?query=" ++ query.

(** The two dictionaries the function returns. *)
Definition PriceResult (token price : string) : pyval :=
  PDict [("token", PStr token); ("price", PStr price)].

Definition ErrorResult (message : string) : pyval :=
  PDict [("error", PStr message)].

Section WithService.
Context {RT : Runtime}.
Variable Upstream : Type.
Variable respond : Upstream -> string -> result Response * Upstream.

Local Open Scope py_scope.

(** The body of the [try] statement. *)
Definition crypto_price_try (token_name : string) : M Upstream pyval :=
  let url := price_url (str_lower token_name) in
  response <- get Upstream respond url ;;
  raise_for_status response ;;
  data <- json response ;;
  hit <- and_then (contains (PStr (str_lower token_name)) data)
                  (entry <- item data (PStr (str_lower token_name)) ;;
                   contains (PStr "usd") entry) ;;
  if hit then
    entry <- item data (PStr (str_lower token_name)) ;;
    price <- item entry (PStr "usd") ;;
    ret (PriceResult token_name ("$" ++ py_str price ++ " USD"))
  else
    let search_url := search_url token_name in
    search_response <- get Upstream respond search_url ;;
    raise_for_status search_response ;;
    search_data <- json search_response ;;
    found <- and_then (test search_data)
                      (coins <- item search_data (PStr "coins") ;; test coins) ;;
    if found then
      coins <- item search_data (PStr "coins") ;;
      first <- item coins (PInt 0) ;;
      first_coin_id <- item first (PStr "id") ;;
      let price_url := price_url (py_str first_coin_id) in
      price_response <- get Upstream respond price_url ;;
      raise_for_status price_response ;;
      price_data <- json price_response ;;
      hit <- and_then (contains first_coin_id price_data)
                      (entry <- item price_data first_coin_id ;;
                       contains (PStr "usd") entry) ;;
      if hit then
        entry <- item price_data first_coin_id ;;
        price <- item entry (PStr "usd") ;;
        ret (PriceResult token_name
               ("$" ++ py_str price ++ " USD (found as "
                    ++ py_str first_coin_id ++ ")"))
      else
        ret (ErrorResult ("Could not find price for " ++ token_name ++ "."))
    else
      ret (ErrorResult ("Could not find " ++ token_name ++ " or its price.")).

(** The two [except] clauses, tried in order. *)
Definition handler (e : exn) : pyval :=
  if is_RequestException e
  then ErrorResult ("Failed to fetch crypto price: " ++ exc_str e)
  else ErrorResult ("An unexpected error occurred: " ++ exc_str e).

Definition crypto_price (token_name : string) (w : world Upstream)
  : pyval * world Upstream :=
  match crypto_price_try token_name w with
  | (Ok outcome, w') => (outcome, w')
  | (Raise e, w') => (handler e, w')
  end.

End WithService.

Arguments crypto_price_try {RT Upstream} respond token_name w.
Arguments crypto_price {RT Upstream} respond token_name w.

End Skill.

(** ** Two services to run the skill against *)

Module Service.

(** A reply with status 200 and the JSON value [data] for body.  Its
    URL, read for an error status only, is left empty. *)
Definition json_reply (data : pyval) : result Response :=
  Ok {| status_code := 200; reason := "OK"; url := ""; body := Ok data |}.

(** A service with fixed data: the answer depends on the URL alone. *)
Definition table (answers : list (string * result Response))
  (s : unit) (url : string) : result Response * unit :=
  (match lookup url answers with
   | Some r => r
   | None => Raise (RequestException "Connection refused")
   end, s).

(** A service that plays a script: the n-th request gets the n-th answer
    whatever its URL. *)
Definition script (s : list (result Response)) (url : string)
  : result Response * list (result Response) :=
  match s with
  | r :: s' => (r, s')
  | [] => (Raise (RequestException "Connection refused"), [])
  end.

Definition start {U : Type} (s : U) : world U :=
  {| upstream := s; exchanges := [] |}.

End Service.

Import Skill.

(** ** Data for the scenarios *)

Module Scenario.

Import Service.

(** The price service holds 65000 USD for "bitcoin". *)
Definition bitcoin_prices : list (string * pyval) :=
  [("bitcoin", PDict [("usd", PInt 65000)])].

Definition bitcoin_service : unit -> string -> result Response * unit :=
  table [(price_url "bitcoin", json_reply (PDict bitcoin_prices))].

(** The search knows "Doge" as [dogecoin], ahead of a second candidate,
    and the price service holds 0.15625 USD for it. *)
Definition doge_candidates : list (string * pyval) :=
  [("coins", PList [PDict [("id", PStr "dogecoin")];
                    PDict [("id", PStr "dogelon-mars")]])].

Definition doge_prices : list (string * pyval) :=
  [("dogecoin", PDict [("usd", PFloat (S754_finite false 5 (-5)))])].

Definition doge_service : unit -> string -> result Response * unit :=
  table [(price_url "doge", json_reply (PDict []));
         (search_url "Doge", json_reply (PDict doge_candidates));
         (price_url "dogecoin", json_reply (PDict doge_prices))].



(** Nothing is known about "nonexistenttoken": no price, and the search
    answers [search_data]. *)
Definition unknown_service (search_data : pyval)
  : unit -> string -> result Response * unit :=
  table [(price_url "nonexistenttoken", json_reply (PDict []));
         (search_url "nonexistenttoken", json_reply search_data)].

(** A search reply without a ["coins"] field. *)
Definition no_coins_field : list (string * pyval) :=
  [("categories", PList [])].

(** The candidate for "Doge" is known, its price is not. *)
Definition unpriced_service : unit -> string -> result Response * unit :=
  table [(price_url "doge", json_reply (PDict []));
         (search_url "Doge", json_reply (PDict doge_candidates));
         (price_url "dogecoin", json_reply (PDict [("dogecoin", PDict [])]))].

(** The first candidate for "Doge" has a name and no identifier. *)
Definition nameless_candidates : list (string * pyval) :=
  [("coins", PList [PDict [("name", PStr "Dogecoin")]])].

Definition nameless_service : unit -> string -> result Response * unit :=
  table [(price_url "doge", json_reply (PDict []));
         (search_url "Doge", json_reply (PDict nameless_candidates))].

(** A request that times out, and one that meets a status 429. *)
Definition timeout_error : exn :=
  RequestException "HTTPSConnectionPool(host='api.coingecko.com', port=443): Read timed out.".

Definition timeout : result Response := Raise timeout_error.

Definition too_many_requests : result Response :=
  Ok {| status_code := 429; reason := "Too Many Requests";
        url := price_url "doge"; body := Ok (PDict []) |}.

Definition too_many_requests_message : string :=
  "429 Client Error: Too Many Requests for url: https://api.coingecko.com/api/v3/simple/price?ids=doge&vs_currencies=usd".

(** A response with status 301 that is not followed any further, with
    the price data for body. *)
Definition moved : Response :=
  {| status_code := 301; reason := "Moved Permanently";
     url := price_url "bitcoin"; body := Ok (PDict bitcoin_prices) |}.

(** Price data that maps "bitcoin" to [null], and a reply whose body does
    not decode: [json()] raises [e]. *)
Definition null_entry : result Response :=
  json_reply (PDict [("bitcoin", PNone)]).

Definition undecodable (e : exn) : result Response :=
  Ok {| status_code := 200; reason := "OK"; url := ""; body := Raise e |}.

Definition decode_message : string :=
  "Expecting value: line 1 column 1 (char 0)".

(** The first candidate for "Doge" has the number 74 for identifier, and
    the price service holds a figure under "74". *)
Definition numbered_candidates : list (string * pyval) :=
  [("coins", PList [PDict [("id", PInt 74)]])].

Definition numbered_prices : list (string * pyval) :=
  [("74", PDict [("usd", PInt 1)])].

Definition numbered_service : unit -> string -> result Response * unit :=
  table [(price_url "doge", json_reply (PDict []));
         (search_url "Doge", json_reply (PDict numbered_candidates));
         (price_url "74", json_reply (PDict numbered_prices))].

(** The first candidate for "Doge" has an empty list for identifier. *)
Definition listed_candidates : list (string * pyval) :=
  [("coins", PList [PDict [("id", PList [])]])].

Definition listed_service : unit -> string -> result Response * unit :=
  table [(price_url "doge", json_reply (PDict []));
         (search_url "Doge", json_reply (PDict listed_candidates));
         (price_url "[]", json_reply (PDict []))].

(** The search answers with the list of candidates itself. *)
Definition bare_candidates : pyval :=
  PList [PDict [("id", PStr "dogecoin")]].

Definition bare_service : unit -> string -> result Response * unit :=
  table [(price_url "doge", json_reply (PDict []));
         (search_url "Doge", json_reply bare_candidates)].

End Scenario.

(** ** The lookup, path by path *)

Module Lookup.

(** What [get], [raise_for_status] and [json] make of one reply of the
    service: the decoded body, or the exception of the first of the three
    that raises. *)
Definition payload (r : result Response) : result pyval :=
  match r with
  | Raise e => Raise e
  | Ok response =>
      match http_error response with
      | Some msg => Raise (RequestException msg)
      | None => body response
      end
  end.

(** The price data has no USD figure for [id]: no entry under [id], or an
    entry without a ["usd"] field. *)
Inductive no_price (id : string) : pyval -> Prop :=
| no_entry d :
    lookup id d = None -> no_price id (PDict d)
| no_usd d e :
    lookup id d = Some (PDict e) -> lookup "usd" e = None ->
    no_price id (PDict d).

(** A success status, in the words of the specification: 2xx. *)
Definition success_status (code : Z) : bool :=
  (200 <=? code) && (code <? 300).

(** A network or transport failure: [requests.get] raises a
    [RequestException], or the response carries a client or server error
    status, 400 to 599, and [raise_for_status] raises [HTTPError] with
    the message [msg]. *)
Inductive transport_failure : result Response -> exn -> Prop :=
| get_fails e :
    is_RequestException e = true -> transport_failure (Raise e) e
| bad_status response msg :
    400 <= status_code response < 600 ->
    http_error response = Some msg ->
    transport_failure (Ok response) (RequestException msg).

(** The tests and subscriptions of the function as functions of the data,
    to read its body as a decision tree over the replies of the
    service. *)

(** [id in data and 'usd' in data[id]] *)
Definition has_usd (id data : pyval) : result bool :=
  match py_in id data with
  | Ok true =>
      match py_getitem data id with
      | Ok entry => py_in (PStr "usd") entry
      | Raise e => Raise e
      end
  | Ok false => Ok false
  | Raise e => Raise e
  end.

(** [data[id]['usd']] *)
Definition usd_of (id data : pyval) : result pyval :=
  match py_getitem data id with
  | Ok entry => py_getitem entry (PStr "usd")
  | Raise e => Raise e
  end.

(** [search_data and search_data['coins']] *)
Definition has_coins (search_data : pyval) : result bool :=
  if truthy search_data then
    match py_getitem search_data (PStr "coins") with
    | Ok coins => Ok (truthy coins)
    | Raise e => Raise e
    end
  else Ok false.

(** [search_data['coins'][0]['id']] *)
Definition first_candidate (search_data : pyval) : result pyval :=
  match py_getitem search_data (PStr "coins") with
  | Ok coins =>
      match py_getitem coins (PInt 0) with
      | Ok first => py_getitem first (PStr "id")
      | Raise e => Raise e
      end
  | Raise e => Raise e
  end.

Definition map_result {A B : Type} (f : A -> B) (r : result A) : result B :=
  match r with
  | Ok a => Ok (f a)
  | Raise e => Raise e
  end.

(** A result of the [try] body for [token_name]: one of the two
    dictionaries, or an exception. *)
Definition structured (token_name : string) (r : result pyval) : Prop :=
  match r with
  | Ok outcome =>
      (exists price, outcome = PriceResult token_name price) \/
      (exists message, outcome = ErrorResult message)
  | Raise _ => True
  end.

(** [None], [bool], [int] and [float]: the values that are neither
    strings nor containers. *)
Definition is_scalar (v : pyval) : bool :=
  match v with
  | PNone | PBool _ | PInt _ | PFloat _ => true
  | PStr _ | PList _ | PDict _ => false
  end.

Definition is_object (v : pyval) : bool :=
  match v with
  | PDict _ => true
  | _ => false
  end.

Section WithService.
Context {RT : Runtime}.
Variable Upstream : Type.
Variable respond : Upstream -> string -> result Response * Upstream.

(** The world after one more exchange. *)
Definition logged (w : world Upstream) (url : string)
  (r : result Response) (s : Upstream) : world Upstream :=
  {| upstream := s; exchanges := (exchanges w ++ [(url, r)])%list |}.

(** In state [s] the service answers the request for [url] with a good
    status and the JSON value [data], and moves to state [s']. *)
Definition answers (s : Upstream) (url : string) (data : pyval)
  (s' : Upstream) : Prop :=
  exists r, respond s url = (r, s') /\ payload r = Ok data.

Definition direct_price (token_name : string) (price : pyval) : pyval :=
  PriceResult token_name ("$" ++ py_str price ++ " USD").

Definition found_price (token_name : string) (id price : pyval) : pyval :=
  PriceResult token_name
    ("$" ++ py_str price ++ " USD (found as " ++ py_str id ++ ")").

Definition no_price_error (token_name : string) : pyval :=
  ErrorResult ("Could not find price for " ++ token_name ++ ".").

Definition not_found_error (token_name : string) : pyval :=
  ErrorResult ("Could not find " ++ token_name ++ " or its price.").

(** The third request and what follows it. *)
Definition fallback_price (token_name : string) (id : pyval)
  (w : world Upstream) : result pyval * world Upstream :=
  let url := price_url (py_str id) in
  let (r, s) := respond (upstream w) url in
  let w' := logged w url r s in
  match payload r with
  | Raise e => (Raise e, w')
  | Ok price_data =>
      match has_usd id price_data with
      | Raise e => (Raise e, w')
      | Ok true => (map_result (found_price token_name id) (usd_of id price_data), w')
      | Ok false => (Ok (no_price_error token_name), w')
      end
  end.

(** The second request and what follows it. *)
Definition search_fallback (token_name : string) (w : world Upstream)
  : result pyval * world Upstream :=
  let url := search_url token_name in
  let (r, s) := respond (upstream w) url in
  let w' := logged w url r s in
  match payload r with
  | Raise e => (Raise e, w')
  | Ok search_data =>
      match has_coins search_data with
      | Raise e => (Raise e, w')
      | Ok true =>
          match first_candidate search_data with
          | Raise e => (Raise e, w')
          | Ok id => fallback_price token_name id w'
          end
      | Ok false => (Ok (not_found_error token_name), w')
      end
  end.

(** The first request and what follows it. *)
Definition direct_lookup (token_name : string) (w : world Upstream)
  : result pyval * world Upstream :=
  let key := str_lower token_name in
  let url := price_url key in
  let (r, s) := respond (upstream w) url in
  let w' := logged w url r s in
  match payload r with
  | Raise e => (Raise e, w')
  | Ok data =>
      match has_usd (PStr key) data with
      | Raise e => (Raise e, w')
      | Ok true => (map_result (direct_price token_name) (usd_of (PStr key) data), w')
      | Ok false => search_fallback token_name w'
      end
  end.

(** The [try] statement with its two handlers. *)
Definition conclude (p : result pyval * world Upstream)
  : pyval * world Upstream :=
  match p with
  | (Ok outcome, w) => (outcome, w)
  | (Raise e, w) => (handler e, w)
  end.

(** What a part [p] of the run, started in world [w], has done: it made
    at most [n] exchanges; a reply that makes [get], [raise_for_status]
    or [json] raise ends it with that exception; any other exception it
    ends with comes from an operator; its value is well formed. *)
Definition accounted (token_name : string) (n : nat) (w : world Upstream)
  (p : result pyval * world Upstream) : Prop :=
  exists new,
    exchanges (snd p) = (exchanges w ++ new)%list /\
    (List.length new <= n)%nat /\
    (forall url r e, In (url, r) new -> payload r = Raise e ->
                     fst p = Raise e) /\
    (forall e, fst p = Raise e ->
               is_RequestException e = false \/
               exists url r, In (url, r) new /\ payload r = Raise e) /\
    structured token_name (fst p).

(** The failures the second handler is for: one of the calls raises an
    exception that is not a [RequestException], or every reply is good
    and an operator raises on the shape of the data. *)
Inductive unexpected_failure (token_name : string) (s : Upstream) (e : exn)
  : Prop :=
| call_raises url r :
    In (url, r)
       (exchanges (snd (crypto_price respond token_name (Service.start s)))) ->
    payload r = Raise e ->
    is_RequestException e = false ->
    unexpected_failure token_name s e
| operator_raises :
    (forall url r,
        In (url, r)
           (exchanges (snd (crypto_price respond token_name
                              (Service.start s)))) ->
        exists data, payload r = Ok data) ->
    fst (crypto_price_try respond token_name (Service.start s)) = Raise e ->
    unexpected_failure token_name s e.

(** Two parts [p1] and [p2] of two runs, started in the worlds [w1] and
    [w2], agree: same result, service states related by [R], same
    exchanges added to the logs. *)
Definition agree {A : Type} (R : Upstream -> Upstream -> Prop)
  (w1 w2 : world Upstream) (p1 p2 : A * world Upstream) : Prop :=
  fst p1 = fst p2 /\
  R (upstream (snd p1)) (upstream (snd p2)) /\
  exists new,
    exchanges (snd p1) = (exchanges w1 ++ new)%list /\
    exchanges (snd p2) = (exchanges w2 ++ new)%list.

(** *** The ways a call ends

    Every call ends in one of ten ways, told apart by the replies of the
    service.  [path token_name s0 res s new] reads: started against the
    service in state [s0], the [try] body ends with [res], leaves the
    service in state [s] and has made the exchanges [new]. *)

(** The direct lookup finds no USD figure in the reply [r1]. *)
Definition direct_missed (token_name : string) (s0 : Upstream)
  (r1 : result Response) (s1 : Upstream) : Prop :=
  exists data,
    respond s0 (price_url (str_lower token_name)) = (r1, s1) /\
    payload r1 = Ok data /\
    has_usd (PStr (str_lower token_name)) data = Ok false.

(** The search reply [r2] has candidates and the first one has the
    identifier [id]. *)
Definition candidate_found (token_name : string) (s1 : Upstream)
  (r2 : result Response) (s2 : Upstream) (id : pyval) : Prop :=
  exists search_data,
    respond s1 (search_url token_name) = (r2, s2) /\
    payload r2 = Ok search_data /\
    has_coins search_data = Ok true /\
    first_candidate search_data = Ok id.

Inductive path (token_name : string) (s0 : Upstream)
  : result pyval -> Upstream -> list (string * result Response) -> Prop :=
| direct_fault r1 s1 e :
    respond s0 (price_url (str_lower token_name)) = (r1, s1) ->
    payload r1 = Raise e ->
    path token_name s0 (Raise e) s1
      [(price_url (str_lower token_name), r1)]
| direct_shape r1 s1 data e :
    respond s0 (price_url (str_lower token_name)) = (r1, s1) ->
    payload r1 = Ok data ->
    has_usd (PStr (str_lower token_name)) data = Raise e ->
    path token_name s0 (Raise e) s1
      [(price_url (str_lower token_name), r1)]
| direct_found r1 s1 data :
    respond s0 (price_url (str_lower token_name)) = (r1, s1) ->
    payload r1 = Ok data ->
    has_usd (PStr (str_lower token_name)) data = Ok true ->
    path token_name s0
      (map_result (direct_price token_name)
         (usd_of (PStr (str_lower token_name)) data)) s1
      [(price_url (str_lower token_name), r1)]
| search_fault r1 s1 r2 s2 e :
    direct_missed token_name s0 r1 s1 ->
    respond s1 (search_url token_name) = (r2, s2) ->
    payload r2 = Raise e ->
    path token_name s0 (Raise e) s2
      [(price_url (str_lower token_name), r1); (search_url token_name, r2)]
| search_shape r1 s1 r2 s2 search_data e :
    direct_missed token_name s0 r1 s1 ->
    respond s1 (search_url token_name) = (r2, s2) ->
    payload r2 = Ok search_data ->
    has_coins search_data = Raise e \/
    (has_coins search_data = Ok true /\
     first_candidate search_data = Raise e) ->
    path token_name s0 (Raise e) s2
      [(price_url (str_lower token_name), r1); (search_url token_name, r2)]
| search_empty r1 s1 r2 s2 search_data :
    direct_missed token_name s0 r1 s1 ->
    respond s1 (search_url token_name) = (r2, s2) ->
    payload r2 = Ok search_data ->
    has_coins search_data = Ok false ->
    path token_name s0 (Ok (not_found_error token_name)) s2
      [(price_url (str_lower token_name), r1); (search_url token_name, r2)]
| fallback_fault r1 s1 r2 s2 id r3 s3 e :
    direct_missed token_name s0 r1 s1 ->
    candidate_found token_name s1 r2 s2 id ->
    respond s2 (price_url (py_str id)) = (r3, s3) ->
    payload r3 = Raise e ->
    path token_name s0 (Raise e) s3
      [(price_url (str_lower token_name), r1); (search_url token_name, r2);
       (price_url (py_str id), r3)]
| fallback_shape r1 s1 r2 s2 id r3 s3 price_data e :
    direct_missed token_name s0 r1 s1 ->
    candidate_found token_name s1 r2 s2 id ->
    respond s2 (price_url (py_str id)) = (r3, s3) ->
    payload r3 = Ok price_data ->
    has_usd id price_data = Raise e ->
    path token_name s0 (Raise e) s3
      [(price_url (str_lower token_name), r1); (search_url token_name, r2);
       (price_url (py_str id), r3)]
| fallback_found r1 s1 r2 s2 id r3 s3 price_data :
    direct_missed token_name s0 r1 s1 ->
    candidate_found token_name s1 r2 s2 id ->
    respond s2 (price_url (py_str id)) = (r3, s3) ->
    payload r3 = Ok price_data ->
    has_usd id price_data = Ok true ->
    path token_name s0
      (map_result (found_price token_name id) (usd_of id price_data)) s3
      [(price_url (str_lower token_name), r1); (search_url token_name, r2);
       (price_url (py_str id), r3)]
| fallback_none r1 s1 r2 s2 id r3 s3 price_data :
    direct_missed token_name s0 r1 s1 ->
    candidate_found token_name s1 r2 s2 id ->
    respond s2 (price_url (py_str id)) = (r3, s3) ->
    payload r3 = Ok price_data ->
    has_usd id price_data = Ok false ->
    path token_name s0 (Ok (no_price_error token_name)) s3
      [(price_url (str_lower token_name), r1); (search_url token_name, r2);
       (price_url (py_str id), r3)].

(** What the two handlers make of the result of the [try] body. *)
Definition outcome_of (res : result pyval) : pyval :=
  match res with
  | Ok outcome => outcome
  | Raise e => handler e
  end.

(** *** The function takes these paths *)

(** The three statements of one fetch, run together. *)
Lemma fetch_eq (A : Type) (url : string) (k : pyval -> M Upstream A)
  (w : world Upstream) :
  bind (get Upstream respond url)
       (fun response =>
          bind (raise_for_status response)
               (fun _ => bind (json response) k)) w
  = let (r, s) := respond (upstream w) url in
    match payload r with
    | Ok data => k data (logged w url r s)
    | Raise e => (Raise e, logged w url r s)
    end.
Proof.
  unfold bind, get, raise_for_status, json, lift, ret, payload, logged.
  destruct (respond (upstream w) url) as [[response | e] s]; [|reflexivity].
  destruct (http_error response); [reflexivity|].
  destruct (body response); reflexivity.
Qed.

Lemma bind_lift (A B : Type) (r : result A) (k : A -> M Upstream B)
  (w : world Upstream) :
  bind (lift r) k w
  = match r with Ok a => k a w | Raise e => (Raise e, w) end.
Proof. unfold bind, lift. destruct r; reflexivity. Qed.

Lemma has_usd_eq (id data : pyval) (w : world Upstream) :
  and_then (contains id data)
           (bind (item data id) (fun entry => contains (PStr "usd") entry)) w
  = lift (has_usd id data) w.
Proof.
  unfold and_then, contains, item, has_usd. rewrite bind_lift.
  destruct (py_in id data) as [[|] | e]; try reflexivity.
  rewrite bind_lift. destruct (py_getitem data id); reflexivity.
Qed.

Lemma usd_of_eq (id data : pyval) (f : pyval -> pyval) (w : world Upstream) :
  bind (item data id)
       (fun entry => bind (item entry (PStr "usd")) (fun price => ret (f price))) w
  = lift (map_result f (usd_of id data)) w.
Proof.
  unfold item, usd_of. rewrite bind_lift.
  destruct (py_getitem data id) as [entry | e]; [|reflexivity].
  rewrite bind_lift. destruct (py_getitem entry (PStr "usd")); reflexivity.
Qed.

Lemma has_coins_eq (search_data : pyval) (w : world Upstream) :
  and_then (test search_data)
           (bind (item search_data (PStr "coins")) (fun coins => test coins)) w
  = lift (has_coins search_data) w.
Proof.
  unfold and_then, test, item, has_coins, ret, bind at 1.
  destruct (truthy search_data); [|reflexivity].
  rewrite bind_lift. destruct (py_getitem search_data (PStr "coins")); reflexivity.
Qed.

Lemma first_candidate_eq (A : Type) (search_data : pyval)
  (k : pyval -> M Upstream A) (w : world Upstream) :
  bind (item search_data (PStr "coins"))
       (fun coins =>
          bind (item coins (PInt 0))
               (fun first => bind (item first (PStr "id")) k)) w
  = bind (lift (first_candidate search_data)) k w.
Proof.
  unfold item, first_candidate. rewrite !bind_lift.
  destruct (py_getitem search_data (PStr "coins")) as [coins | e]; [|reflexivity].
  rewrite bind_lift.
  destruct (py_getitem coins (PInt 0)) as [first | e]; [|reflexivity].
  rewrite bind_lift. reflexivity.
Qed.

Lemma bind_eq (A B : Type) (c c' : M Upstream A) (k : A -> M Upstream B)
  (w : world Upstream) :
  c w = c' w -> bind c k w = bind c' k w.
Proof. unfold bind. intros ->. reflexivity. Qed.

(** The body of the [try] statement takes exactly these paths. *)
Lemma crypto_price_try_paths (token_name : string) (w : world Upstream) :
  crypto_price_try respond token_name w = direct_lookup token_name w.
Proof.
  unfold crypto_price_try, direct_lookup.
  rewrite fetch_eq.
  destruct (respond (upstream w) (price_url (str_lower token_name))) as [r1 s1].
  destruct (payload r1) as [data | e]; [|reflexivity].
  rewrite (bind_eq _ _ _ _ _ _ (has_usd_eq _ _ _)), bind_lift.
  destruct (has_usd (PStr (str_lower token_name)) data) as [[|] | e];
    [apply usd_of_eq | | reflexivity].
  unfold search_fallback. rewrite fetch_eq.
  destruct (respond (upstream (logged w _ r1 s1)) (search_url token_name))
    as [r2 s2].
  destruct (payload r2) as [search_data | e]; [|reflexivity].
  rewrite (bind_eq _ _ _ _ _ _ (has_coins_eq _ _)), bind_lift.
  destruct (has_coins search_data) as [[|] | e]; [| reflexivity | reflexivity].
  rewrite first_candidate_eq, bind_lift.
  destruct (first_candidate search_data) as [id | e]; [|reflexivity].
  unfold fallback_price. rewrite fetch_eq.
  destruct (respond (upstream (logged _ _ r2 s2)) (price_url (py_str id)))
    as [r3 s3].
  destruct (payload r3) as [price_data | e]; [|reflexivity].
  rewrite (bind_eq _ _ _ _ _ _ (has_usd_eq _ _ _)), bind_lift.
  destruct (has_usd id price_data) as [[|] | e];
    [apply usd_of_eq | reflexivity | reflexivity].
Qed.

Lemma crypto_price_paths (token_name : string) (w : world Upstream) :
  crypto_price respond token_name w = conclude (direct_lookup token_name w).
Proof.
  unfold crypto_price. rewrite crypto_price_try_paths. reflexivity.
Qed.

(** *** The tests on well-shaped data *)

Lemma has_usd_hit (id : string) (d e : list (string * pyval)) (price : pyval) :
  lookup id d = Some (PDict e) -> lookup "usd" e = Some price ->
  has_usd (PStr id) (PDict d) = Ok true /\
  usd_of (PStr id) (PDict d) = Ok price.
Proof.
  intros Hd He. unfold has_usd, usd_of, py_in, py_getitem, hashable.
  rewrite Hd, He. split; reflexivity.
Qed.

Lemma has_usd_miss (id : string) (data : pyval) :
  no_price id data -> has_usd (PStr id) data = Ok false.
Proof.
  intros [d Hd | d e Hd He]; unfold has_usd, py_in, py_getitem, hashable;
    rewrite Hd; [reflexivity|]. rewrite He. reflexivity.
Qed.

Lemma first_of_coins (sd : list (string * pyval)) (first : pyval)
  (rest : list pyval) :
  lookup "coins" sd = Some (PList (first :: rest)) ->
  has_coins (PDict sd) = Ok true /\
  first_candidate (PDict sd) = py_getitem first (PStr "id").
Proof.
  intros Hc. unfold has_coins, first_candidate, py_getitem at 1 2, hashable.
  rewrite Hc. destruct sd; [discriminate|]. split; reflexivity.
Qed.

(** A direct lookup that finds no USD figure goes on with the search. *)
Lemma miss_falls_back (token_name : string) (w : world Upstream)
  (r : result Response) (data : pyval) (s : Upstream) :
  respond (upstream w) (price_url (str_lower token_name)) = (r, s) ->
  payload r = Ok data ->
  no_price (str_lower token_name) data ->
  crypto_price respond token_name w
  = conclude (search_fallback token_name
                (logged w (price_url (str_lower token_name)) r s)).
Proof.
  intros Hr Hp Hmiss. rewrite crypto_price_paths. unfold direct_lookup.
  rewrite Hr, Hp, (has_usd_miss _ _ Hmiss). reflexivity.
Qed.

Lemma requested_logged (w : world Upstream) (url : string)
  (r : result Response) (s : Upstream) :
  requested (logged w url r s) = (requested w ++ [url])%list.
Proof. unfold requested, logged. cbn. rewrite map_app. reflexivity. Qed.

Lemma upstream_logged (w : world Upstream) (url : string)
  (r : result Response) (s : Upstream) :
  upstream (logged w url r s) = s.
Proof. reflexivity. Qed.

(** *** The success paths *)

(** C1. Direct hit: when the price service answers the query for the
    lowercased token name with an object that has an entry for that name
    with a ["usd"] field, the outcome is the price result with the token
    name as given and the price ["$<value> USD"], no identifier appended,
    and the price query is the only request made. *)
Theorem direct_hit (token_name : string) (w : world Upstream)
  (d e : list (string * pyval)) (price : pyval) (s : Upstream) :
  answers (upstream w) (price_url (str_lower token_name)) (PDict d) s ->
  lookup (str_lower token_name) d = Some (PDict e) ->
  lookup "usd" e = Some price ->
  fst (crypto_price respond token_name w)
    = PriceResult token_name ("$" ++ py_str price ++ " USD")
  /\ upstream (snd (crypto_price respond token_name w)) = s
  /\ requested (snd (crypto_price respond token_name w))
     = (requested w ++ [price_url (str_lower token_name)])%list.
Proof.
  intros (r & Hr & Hp) Hd He.
  destruct (has_usd_hit _ _ _ _ Hd He) as [Hhit Husd].
  rewrite crypto_price_paths. unfold direct_lookup.
  rewrite Hr, Hp, Hhit, Husd. cbn [map_result conclude fst snd].
  rewrite requested_logged. auto.
Qed.

(** C2. Fallback hit: when the direct lookup finds no USD figure, the
    search answers with a non-empty list of candidates, and the price
    query for the identifier of the first candidate has a ["usd"] figure,
    the outcome is the price result ["$<value> USD (found as <id>)"] with
    the identifier of the first candidate, whatever candidates follow it. *)
Theorem fallback_hit (token_name : string) (w : world Upstream)
  (data : pyval) (sd first : list (string * pyval)) (rest : list pyval)
  (id : string) (pd e : list (string * pyval)) (price : pyval)
  (s1 s2 s3 : Upstream) :
  answers (upstream w) (price_url (str_lower token_name)) data s1 ->
  no_price (str_lower token_name) data ->
  answers s1 (search_url token_name) (PDict sd) s2 ->
  lookup "coins" sd = Some (PList (PDict first :: rest)) ->
  lookup "id" first = Some (PStr id) ->
  answers s2 (price_url id) (PDict pd) s3 ->
  lookup id pd = Some (PDict e) ->
  lookup "usd" e = Some price ->
  fst (crypto_price respond token_name w)
    = PriceResult token_name
        ("$" ++ py_str price ++ " USD (found as " ++ id ++ ")")
  /\ upstream (snd (crypto_price respond token_name w)) = s3
  /\ requested (snd (crypto_price respond token_name w))
     = (requested w ++ [price_url (str_lower token_name);
                        search_url token_name; price_url id])%list.
Proof.
  intros (r1 & Hr1 & Hp1) Hmiss (r2 & Hr2 & Hp2) Hcoins Hid
    (r3 & Hr3 & Hp3) Hd He.
  destruct (first_of_coins _ _ _ Hcoins) as [Hfound Hfirst].
  destruct (has_usd_hit _ _ _ _ Hd He) as [Hhit Husd].
  assert (Hfirst' : first_candidate (PDict sd) = Ok (PStr id)).
  { rewrite Hfirst. unfold py_getitem, hashable. rewrite Hid. reflexivity. }
  rewrite (miss_falls_back _ _ _ _ _ Hr1 Hp1 Hmiss).
  unfold search_fallback. rewrite upstream_logged, Hr2, Hp2, Hfound, Hfirst'.
  unfold fallback_price. cbn [py_str].
  rewrite upstream_logged, Hr3, Hp3, Hhit, Husd.
  cbn [map_result conclude fst snd found_price py_str].
  rewrite !requested_logged, <- !app_assoc. auto.
Qed.

(** *** The lookup misses *)

Lemma has_coins_none (sd : list (string * pyval)) :
  sd = [] \/ lookup "coins" sd = Some (PList []) ->
  has_coins (PDict sd) = Ok false.
Proof.
  intros [-> | Hc]; [reflexivity|].
  unfold has_coins, py_getitem, hashable. rewrite Hc.
  destruct sd; reflexivity.
Qed.

(** C3, as the code has it. No candidates: when the direct lookup finds no
    USD figure and the search answers with an object whose ["coins"] list
    is empty, or with the empty object, the outcome is the error
    ["Could not find <tokenName> or its price."], after two requests. *)
Theorem no_candidates (token_name : string) (w : world Upstream)
  (data : pyval) (sd : list (string * pyval)) (s1 s2 : Upstream) :
  answers (upstream w) (price_url (str_lower token_name)) data s1 ->
  no_price (str_lower token_name) data ->
  answers s1 (search_url token_name) (PDict sd) s2 ->
  sd = [] \/ lookup "coins" sd = Some (PList []) ->
  fst (crypto_price respond token_name w)
    = ErrorResult ("Could not find " ++ token_name ++ " or its price.")
  /\ upstream (snd (crypto_price respond token_name w)) = s2
  /\ requested (snd (crypto_price respond token_name w))
     = (requested w ++ [price_url (str_lower token_name);
                        search_url token_name])%list.
Proof.
  intros (r1 & Hr1 & Hp1) Hmiss (r2 & Hr2 & Hp2) Hnone.
  rewrite (miss_falls_back _ _ _ _ _ Hr1 Hp1 Hmiss).
  unfold search_fallback.
  rewrite upstream_logged, Hr2, Hp2, (has_coins_none _ Hnone).
  cbn [conclude fst snd not_found_error].
  rewrite !requested_logged, <- !app_assoc. auto.
Qed.

(** C6. Candidate without a price: when the direct lookup finds no USD
    figure, the search gives a first candidate, and the price data fetched
    for its identifier has no entry for it or an entry without ["usd"],
    the outcome is the error ["Could not find price for <tokenName>."]. *)
Theorem candidate_without_price (token_name : string) (w : world Upstream)
  (data price_data : pyval) (sd first : list (string * pyval))
  (rest : list pyval) (id : string) (s1 s2 s3 : Upstream) :
  answers (upstream w) (price_url (str_lower token_name)) data s1 ->
  no_price (str_lower token_name) data ->
  answers s1 (search_url token_name) (PDict sd) s2 ->
  lookup "coins" sd = Some (PList (PDict first :: rest)) ->
  lookup "id" first = Some (PStr id) ->
  answers s2 (price_url id) price_data s3 ->
  no_price id price_data ->
  fst (crypto_price respond token_name w)
    = ErrorResult ("Could not find price for " ++ token_name ++ ".")
  /\ upstream (snd (crypto_price respond token_name w)) = s3
  /\ requested (snd (crypto_price respond token_name w))
     = (requested w ++ [price_url (str_lower token_name);
                        search_url token_name; price_url id])%list.
Proof.
  intros (r1 & Hr1 & Hp1) Hmiss (r2 & Hr2 & Hp2) Hcoins Hid
    (r3 & Hr3 & Hp3) Hnone.
  destruct (first_of_coins _ _ _ Hcoins) as [Hfound Hfirst].
  assert (Hfirst' : first_candidate (PDict sd) = Ok (PStr id)).
  { rewrite Hfirst. unfold py_getitem, hashable. rewrite Hid. reflexivity. }
  rewrite (miss_falls_back _ _ _ _ _ Hr1 Hp1 Hmiss).
  unfold search_fallback. rewrite upstream_logged, Hr2, Hp2, Hfound, Hfirst'.
  unfold fallback_price. cbn [py_str].
  rewrite upstream_logged, Hr3, Hp3, (has_usd_miss _ _ Hnone).
  cbn [conclude fst snd no_price_error].
  rewrite !requested_logged, <- !app_assoc. auto.
Qed.

(** C10. Candidate without an identifier: when the direct lookup finds no
    USD figure and the first candidate of the search is an object without
    an ["id"] field, the subscription raises [KeyError('id')] and the
    outcome is the error of the catch-all handler,
    ["An unexpected error occurred: "] followed by the [repr] of the key;
    no third request is made. *)
Theorem candidate_without_id (token_name : string) (w : world Upstream)
  (data : pyval) (sd first : list (string * pyval)) (rest : list pyval)
  (s1 s2 : Upstream) :
  answers (upstream w) (price_url (str_lower token_name)) data s1 ->
  no_price (str_lower token_name) data ->
  answers s1 (search_url token_name) (PDict sd) s2 ->
  lookup "coins" sd = Some (PList (PDict first :: rest)) ->
  lookup "id" first = None ->
  fst (crypto_price respond token_name w)
    = ErrorResult ("An unexpected error occurred: " ++ py_repr (PStr "id"))
  /\ upstream (snd (crypto_price respond token_name w)) = s2
  /\ requested (snd (crypto_price respond token_name w))
     = (requested w ++ [price_url (str_lower token_name);
                        search_url token_name])%list.
Proof.
  intros (r1 & Hr1 & Hp1) Hmiss (r2 & Hr2 & Hp2) Hcoins Hid.
  destruct (first_of_coins _ _ _ Hcoins) as [Hfound Hfirst].
  assert (Hfirst' : first_candidate (PDict sd) = Raise (KeyError (PStr "id"))).
  { rewrite Hfirst. unfold py_getitem, hashable. rewrite Hid. reflexivity. }
  rewrite (miss_falls_back _ _ _ _ _ Hr1 Hp1 Hmiss).
  unfold search_fallback. rewrite upstream_logged, Hr2, Hp2, Hfound, Hfirst'.
  cbn [conclude fst snd handler is_RequestException exc_str].
  rewrite !requested_logged, <- !app_assoc. auto.
Qed.

(** *** Two runs against services that answer alike

    The function keeps nothing between calls: whatever it does is decided
    by the token name and the replies.  Two runs whose service states are
    related by [R], a relation under which the service gives the same
    reply to the same request and stays related, have the same result and
    make the same exchanges. *)

Section Agreement.
Variable R : Upstream -> Upstream -> Prop.
Hypothesis same_replies :
  forall s s' url, R s s' ->
    fst (respond s url) = fst (respond s' url) /\
    R (snd (respond s url)) (snd (respond s' url)).

Lemma agree_stop {A : Type} (w1 w2 : world Upstream) (url : string)
  (r : result Response) (s1 s2 : Upstream) (a : A) :
  R s1 s2 -> agree R w1 w2 (a, logged w1 url r s1) (a, logged w2 url r s2).
Proof.
  intros HR. split; [reflexivity|]. split; [exact HR|].
  exists [(url, r)]. split; reflexivity.
Qed.

Lemma agree_more {A : Type} (w1 w2 : world Upstream) (url : string)
  (r : result Response) (s1 s2 : Upstream) (p1 p2 : A * world Upstream) :
  agree R (logged w1 url r s1) (logged w2 url r s2) p1 p2 -> agree R w1 w2 p1 p2.
Proof.
  intros (Hfst & HR & new & H1 & H2). split; [exact Hfst|]. split; [exact HR|].
  exists ((url, r) :: new). rewrite H1, H2. unfold logged. cbn [exchanges].
  rewrite <- !app_assoc. split; reflexivity.
Qed.

Ltac same_reply w1 w2 url H :=
  let r1 := fresh "r" in
  let s1 := fresh "s" in
  let r2 := fresh "r" in
  let s2 := fresh "s" in
  let Hr := fresh "Hr" in
  let Hs := fresh "Hs" in
  destruct (same_replies _ _ url H) as [Hr Hs];
  destruct (respond (upstream w1) url) as [r1 s1];
  destruct (respond (upstream w2) url) as [r2 s2];
  cbn [fst snd] in Hr, Hs; subst r2.

Lemma fallback_price_agree (token_name : string) (id : pyval)
  (w1 w2 : world Upstream) :
  R (upstream w1) (upstream w2) ->
  agree R w1 w2 (fallback_price token_name id w1)
              (fallback_price token_name id w2).
Proof.
  intros H. unfold fallback_price.
  same_reply w1 w2 (price_url (py_str id)) H.
  destruct (payload r) as [price_data | e]; [|now apply agree_stop].
  destruct (has_usd id price_data) as [[|] | e]; now apply agree_stop.
Qed.

Lemma search_fallback_agree (token_name : string) (w1 w2 : world Upstream) :
  R (upstream w1) (upstream w2) ->
  agree R w1 w2 (search_fallback token_name w1)
              (search_fallback token_name w2).
Proof.
  intros H. unfold search_fallback.
  same_reply w1 w2 (search_url token_name) H.
  destruct (payload r) as [search_data | e]; [|now apply agree_stop].
  destruct (has_coins search_data) as [[|] | e]; try now apply agree_stop.
  destruct (first_candidate search_data) as [id | e]; [|now apply agree_stop].
  eapply agree_more, fallback_price_agree. exact Hs.
Qed.

Lemma direct_lookup_agree (token_name : string) (w1 w2 : world Upstream) :
  R (upstream w1) (upstream w2) ->
  agree R w1 w2 (direct_lookup token_name w1) (direct_lookup token_name w2).
Proof.
  intros H. unfold direct_lookup.
  same_reply w1 w2 (price_url (str_lower token_name)) H.
  destruct (payload r) as [data | e]; [|now apply agree_stop].
  destruct (has_usd (PStr (str_lower token_name)) data) as [[|] | e];
    try now apply agree_stop.
  eapply agree_more, search_fallback_agree. exact Hs.
Qed.

Lemma conclude_agree (w1 w2 : world Upstream)
  (p1 p2 : result pyval * world Upstream) :
  agree R w1 w2 p1 p2 -> agree R w1 w2 (conclude p1) (conclude p2).
Proof.
  destruct p1 as [r1 w1'], p2 as [r2 w2']. intros (Hfst & H).
  cbn [fst] in Hfst. subst r2. destruct r1; split; auto.
Qed.

Lemma crypto_price_agree (token_name : string) (w1 w2 : world Upstream) :
  R (upstream w1) (upstream w2) ->
  agree R w1 w2 (crypto_price respond token_name w1)
              (crypto_price respond token_name w2).
Proof.
  intros H. rewrite !crypto_price_paths.
  apply conclude_agree, direct_lookup_agree, H.
Qed.

End Agreement.

Lemma snd_conclude (p : result pyval * world Upstream) :
  snd (conclude p) = snd p.
Proof. destruct p as [[outcome | e] w]; reflexivity. Qed.



(** C8. Same call, same outcome: against a service whose replies depend
    on the request alone, any two calls with the same token name, in
    particular a call and its repetition, return the same outcome after
    the same exchanges.  The function has no state of its own: the world
    it threads holds the service and the log only. *)
Theorem same_call_same_outcome (token_name : string)
  (w1 w2 : world Upstream) :
  (forall s s' url, fst (respond s url) = fst (respond s' url)) ->
  fst (crypto_price respond token_name w1)
    = fst (crypto_price respond token_name w2)
  /\ exists new,
       exchanges (snd (crypto_price respond token_name w1))
       = (exchanges w1 ++ new)%list /\
       exchanges (snd (crypto_price respond token_name w2))
       = (exchanges w2 ++ new)%list.
Proof.
  intros Hfixed.
  destruct (crypto_price_agree (fun _ _ => True)
              (fun s s' url _ => conj (Hfixed s s' url) I)
              token_name w1 w2 I) as (Hfst & _ & Hnew).
  split; assumption.
Qed.

(** *** Exceptions and where they come from *)

(** The operators raise [TypeError], [KeyError] and [IndexError] only. *)
Lemma py_in_raises (x c : pyval) (e : exn) :
  py_in x c = Raise e -> is_RequestException e = false.
Proof.
  unfold py_in. destruct c, x; cbn; try discriminate;
    intros [= <-]; reflexivity.
Qed.

Lemma py_getitem_raises (c k : pyval) (e : exn) :
  py_getitem c k = Raise e -> is_RequestException e = false.
Proof.
  unfold py_getitem. destruct c, k; cbn;
    repeat match goal with
           | |- context [match ?x with _ => _ end] => destruct x
           end;
    try discriminate; intros [= <-]; reflexivity.
Qed.

Lemma has_usd_raises (id data : pyval) (e : exn) :
  has_usd id data = Raise e -> is_RequestException e = false.
Proof.
  unfold has_usd.
  destruct (py_in id data) as [[|] | e0] eqn:Hin; try discriminate.
  - destruct (py_getitem data id) as [entry | e1] eqn:Hitem.
    + apply py_in_raises.
    + intros [= <-]. exact (py_getitem_raises _ _ _ Hitem).
  - intros [= <-]. exact (py_in_raises _ _ _ Hin).
Qed.

Lemma usd_of_raises (id data : pyval) (e : exn) :
  usd_of id data = Raise e -> is_RequestException e = false.
Proof.
  unfold usd_of. destruct (py_getitem data id) as [entry | e1] eqn:Hitem.
  - apply py_getitem_raises.
  - intros [= <-]. exact (py_getitem_raises _ _ _ Hitem).
Qed.

Lemma has_coins_raises (search_data : pyval) (e : exn) :
  has_coins search_data = Raise e -> is_RequestException e = false.
Proof.
  unfold has_coins. destruct (truthy search_data); [|discriminate].
  destruct (py_getitem search_data (PStr "coins")) as [coins | e1] eqn:Hitem;
    [discriminate|].
  intros [= <-]. exact (py_getitem_raises _ _ _ Hitem).
Qed.

Lemma first_candidate_raises (search_data : pyval) (e : exn) :
  first_candidate search_data = Raise e -> is_RequestException e = false.
Proof.
  unfold first_candidate.
  destruct (py_getitem search_data (PStr "coins")) as [coins | e1] eqn:H1.
  - destruct (py_getitem coins (PInt 0)) as [first | e2] eqn:H2.
    + apply py_getitem_raises.
    + intros [= <-]. exact (py_getitem_raises _ _ _ H2).
  - intros [= <-]. exact (py_getitem_raises _ _ _ H1).
Qed.

Lemma accounted_fault (token_name : string) (w : world Upstream)
  (url : string) (r : result Response) (s : Upstream) (e : exn) (n : nat) :
  payload r = Raise e ->
  accounted token_name (S n) w (Raise e, logged w url r s).
Proof.
  intros Hp. exists [(url, r)]. cbn [fst snd logged exchanges List.length].
  repeat split; try exact I.
  - lia.
  - intros url' r' e' [[= <- <-] | []] Hp'. congruence.
  - intros e' [= <-]. right. exists url, r. split; [left; reflexivity | exact Hp].
Qed.

Lemma accounted_stop (token_name : string) (w : world Upstream)
  (url : string) (r : result Response) (s : Upstream) (data : pyval)
  (res : result pyval) (n : nat) :
  payload r = Ok data ->
  (forall e, res = Raise e -> is_RequestException e = false) ->
  structured token_name res ->
  accounted token_name (S n) w (res, logged w url r s).
Proof.
  intros Hp Hres Hs. exists [(url, r)]. cbn [fst snd logged exchanges List.length].
  repeat split; try exact Hs.
  - lia.
  - intros url' r' e' [[= <- <-] | []] Hp'. congruence.
  - intros e' He'. left. exact (Hres _ He').
Qed.

Lemma accounted_more (token_name : string) (w : world Upstream)
  (url : string) (r : result Response) (s : Upstream) (data : pyval)
  (p : result pyval * world Upstream) (n : nat) :
  payload r = Ok data ->
  accounted token_name n (logged w url r s) p ->
  accounted token_name (S n) w p.
Proof.
  intros Hp (new & Hnew & Hlen & Hfault & Hraise & Hs).
  exists ((url, r) :: new). cbn [List.length].
  split; [|split; [|split; [|split]]].
  - rewrite Hnew. unfold logged. cbn [exchanges]. rewrite <- app_assoc.
    reflexivity.
  - lia.
  - intros url' r' e' [[= <- <-] | Hin] Hp'; [congruence|].
    exact (Hfault _ _ _ Hin Hp').
  - intros e' He'. destruct (Hraise _ He') as [Hop | (url' & r' & Hin & Hp')];
      [left; exact Hop|].
    right. exists url', r'. split; [right; exact Hin | exact Hp'].
  - exact Hs.
Qed.

Lemma map_result_raises (f : pyval -> pyval) (r : result pyval) (e : exn) :
  (forall e', r = Raise e' -> is_RequestException e' = false) ->
  map_result f r = Raise e -> is_RequestException e = false.
Proof. destruct r; [discriminate|]. intros H [= <-]. apply H. reflexivity. Qed.

Lemma fallback_price_accounted (token_name : string) (id : pyval)
  (w : world Upstream) :
  accounted token_name 1 w (fallback_price token_name id w).
Proof.
  unfold fallback_price.
  destruct (respond (upstream w) (price_url (py_str id))) as [r s].
  destruct (payload r) as [price_data | e] eqn:Hp;
    [|now apply accounted_fault].
  destruct (has_usd id price_data) as [[|] | e] eqn:Hhit;
    apply (accounted_stop _ _ _ _ _ _ _ _ Hp).
  - intros e. apply map_result_raises. intros e'. apply usd_of_raises.
  - destruct (usd_of id price_data); [|exact I]. left. eexists. reflexivity.
  - discriminate.
  - right. eexists. reflexivity.
  - intros e' [= <-]. exact (has_usd_raises _ _ _ Hhit).
  - exact I.
Qed.

Lemma search_fallback_accounted (token_name : string) (w : world Upstream) :
  accounted token_name 2 w (search_fallback token_name w).
Proof.
  unfold search_fallback.
  destruct (respond (upstream w) (search_url token_name)) as [r s].
  destruct (payload r) as [search_data | e] eqn:Hp;
    [|now apply accounted_fault].
  destruct (has_coins search_data) as [[|] | e] eqn:Hfound.
  - destruct (first_candidate search_data) as [id | e] eqn:Hfirst.
    + eapply accounted_more; [exact Hp|]. apply fallback_price_accounted.
    + apply (accounted_stop _ _ _ _ _ _ _ _ Hp); [|exact I].
      intros e' [= <-]. exact (first_candidate_raises _ _ Hfirst).
  - apply (accounted_stop _ _ _ _ _ _ _ _ Hp); [discriminate|].
    right. eexists. reflexivity.
  - apply (accounted_stop _ _ _ _ _ _ _ _ Hp); [|exact I].
    intros e' [= <-]. exact (has_coins_raises _ _ Hfound).
Qed.

Lemma direct_lookup_accounted (token_name : string) (w : world Upstream) :
  accounted token_name 3 w (direct_lookup token_name w).
Proof.
  unfold direct_lookup.
  destruct (respond (upstream w) (price_url (str_lower token_name))) as [r s].
  destruct (payload r) as [data | e] eqn:Hp; [|now apply accounted_fault].
  destruct (has_usd (PStr (str_lower token_name)) data) as [[|] | e] eqn:Hhit.
  - apply (accounted_stop _ _ _ _ _ _ _ _ Hp).
    + intros e. apply map_result_raises. intros e'. apply usd_of_raises.
    + destruct (usd_of _ data); [|exact I]. left. eexists. reflexivity.
  - eapply accounted_more; [exact Hp|]. apply search_fallback_accounted.
  - apply (accounted_stop _ _ _ _ _ _ _ _ Hp); [|exact I].
    intros e' [= <-]. exact (has_usd_raises _ _ _ Hhit).
Qed.

Lemma crypto_price_accounted (token_name : string) (w : world Upstream) :
  accounted token_name 3 w (crypto_price_try respond token_name w)
  /\ crypto_price respond token_name w
     = conclude (crypto_price_try respond token_name w).
Proof.
  rewrite crypto_price_paths, crypto_price_try_paths.
  split; [apply direct_lookup_accounted | reflexivity].
Qed.

(** *** The two handlers *)

(** C5, as the code has it. Transport failures: whichever of the up to
    three requests it happens at, a failure of [requests.get] with a
    [RequestException], or a response with a client or server error
    status (400 to 599), ends the call with the error
    ["Failed to fetch crypto price: <details>"]; the function returns it
    as a value.  Any other status, a 3xx that is not followed included,
    is no failure to the function: it goes on to decode the body. *)
Theorem transport_failure_reported (token_name : string) (s : Upstream)
  (url : string) (r : result Response) (e : exn) :
  In (url, r)
     (exchanges (snd (crypto_price respond token_name (Service.start s)))) ->
  transport_failure r e ->
  fst (crypto_price respond token_name (Service.start s))
    = ErrorResult ("Failed to fetch crypto price: " ++ exc_str e).
Proof.
  intros Hin Hfail.
  destruct (crypto_price_accounted token_name (Service.start s))
    as [(new & Hnew & _ & Hfault & _) Heq].
  rewrite Heq in Hin |- *. rewrite snd_conclude, Hnew in Hin.
  cbn [Service.start exchanges app] in Hin.
  assert (Hp : payload r = Raise e /\ is_RequestException e = true).
  { destruct Hfail as [e He | response msg _ Hmsg]; cbn [payload].
    - auto.
    - rewrite Hmsg. auto. }
  destruct Hp as [Hp He]. specialize (Hfault _ _ _ Hin Hp).
  destruct (crypto_price_try respond token_name (Service.start s))
    as [res w']. cbn [fst] in Hfault. subst res.
  cbn [conclude fst]. unfold handler. rewrite He. reflexivity.
Qed.

(** C4, as the code has it. Other failures: an exception that is not a
    [RequestException], raised by one of the calls or by an operator
    applied to data of an unexpected shape, ends the call with the error
    ["An unexpected error occurred: <details>"].  A body that does not
    decode is reported this way when the library raises a [ValueError]
    for it, not when it raises its own [JSONDecodeError]. *)
Theorem unexpected_failure_reported (token_name : string) (s : Upstream)
  (e : exn) :
  unexpected_failure token_name s e ->
  fst (crypto_price respond token_name (Service.start s))
    = ErrorResult ("An unexpected error occurred: " ++ exc_str e).
Proof.
  destruct (crypto_price_accounted token_name (Service.start s))
    as [(new & Hnew & _ & Hfault & Hraise & _) Heq].
  assert (Hlog : exchanges (snd (crypto_price respond token_name
                                   (Service.start s))) = new).
  { rewrite Heq, snd_conclude, Hnew. reflexivity. }
  assert (Hgeneric : fst (crypto_price_try respond token_name (Service.start s))
                     = Raise e ->
                     is_RequestException e = false ->
                     fst (crypto_price respond token_name (Service.start s))
                     = ErrorResult ("An unexpected error occurred: "
                                    ++ exc_str e)).
  { rewrite Heq.
    destruct (crypto_price_try respond token_name (Service.start s))
      as [res w']. cbn [fst]. intros -> He.
    cbn [conclude fst]. unfold handler. rewrite He. reflexivity. }
  intros [url r Hin Hp He | Hgood Hres].
  - rewrite Hlog in Hin. apply Hgeneric; [|exact He].
    exact (Hfault _ _ _ Hin Hp).
  - apply Hgeneric; [exact Hres|].
    destruct (Hraise _ Hres) as [Hop | (url & r & Hin & Hp)]; [exact Hop|].
    rewrite <- Hlog in Hin.
    destruct (Hgood _ _ Hin) as [data Hdata]. congruence.
Qed.

(** C7. Always a structured outcome: for every token name and every
    service, the call returns (the function is total) one of the two
    dictionaries, the price result for the token name as given or an
    error result; no dictionary is both; and it makes at most three
    requests. *)
Theorem always_structured (token_name : string) (w : world Upstream) :
  ((exists price,
       fst (crypto_price respond token_name w)
       = PriceResult token_name price) \/
   (exists message,
       fst (crypto_price respond token_name w) = ErrorResult message))
  /\ (forall token price message,
         PriceResult token price <> ErrorResult message)
  /\ exists new,
       exchanges (snd (crypto_price respond token_name w))
       = (exchanges w ++ new)%list /\
       (List.length new <= 3)%nat.
Proof.
  destruct (crypto_price_accounted token_name w)
    as [(new & Hnew & Hlen & _ & _ & Hs) Heq].
  rewrite Heq, snd_conclude.
  split; [|split; [discriminate | exists new; auto]].
  destruct (crypto_price_try respond token_name w) as [[outcome | e] w'];
    cbn [fst conclude structured] in *; [exact Hs|].
  right. unfold handler. destruct (is_RequestException e); eexists; reflexivity.
Qed.

(** *** Every call takes one of the ten ways *)

Lemma direct_lookup_path (token_name : string) (w : world Upstream) :
  exists res s new,
    direct_lookup token_name w
    = (res, {| upstream := s; exchanges := (exchanges w ++ new)%list |}) /\
    path token_name (upstream w) res s new.
Proof.
  unfold direct_lookup, search_fallback, fallback_price, logged.
  cbn [upstream exchanges].
  destruct (respond (upstream w) (price_url (str_lower token_name)))
    as [r1 s1] eqn:H1.
  destruct (payload r1) as [data | e] eqn:Hp1;
    [|do 3 eexists; split; [reflexivity | eapply direct_fault; eassumption]].
  destruct (has_usd (PStr (str_lower token_name)) data) as [[|] | e] eqn:Ht1;
    [do 3 eexists; split; [reflexivity | eapply direct_found; eassumption]
    | | do 3 eexists; split; [reflexivity | eapply direct_shape; eassumption]].
  assert (Hmiss : direct_missed token_name (upstream w) r1 s1)
    by (exists data; auto).
  destruct (respond s1 (search_url token_name)) as [r2 s2] eqn:H2.
  destruct (payload r2) as [search_data | e] eqn:Hp2;
    [|do 3 eexists; split;
      [rewrite <- app_assoc; reflexivity | eapply search_fault; eassumption]].
  destruct (has_coins search_data) as [[|] | e] eqn:Hc;
    [| do 3 eexists; split;
       [rewrite <- app_assoc; reflexivity | eapply search_empty; eassumption]
     | do 3 eexists; split;
       [rewrite <- app_assoc; reflexivity
       | eapply search_shape; try eassumption; left; assumption]].
  destruct (first_candidate search_data) as [id | e] eqn:Hf;
    [| do 3 eexists; split;
       [rewrite <- app_assoc; reflexivity
       | eapply search_shape; try eassumption; right; split; assumption]].
  assert (Hcand : candidate_found token_name s1 r2 s2 id)
    by (exists search_data; auto).
  destruct (respond s2 (price_url (py_str id))) as [r3 s3] eqn:H3.
  destruct (payload r3) as [price_data | e] eqn:Hp3;
    [|do 3 eexists; split;
      [rewrite <- !app_assoc; reflexivity
      | eapply fallback_fault; eassumption]].
  destruct (has_usd id price_data) as [[|] | e] eqn:Ht3;
    do 3 eexists; (split; [rewrite <- !app_assoc; reflexivity|]).
  - eapply fallback_found; eassumption.
  - eapply fallback_none; eassumption.
  - eapply fallback_shape; eassumption.
Qed.

Lemma crypto_price_path (token_name : string) (w : world Upstream) :
  exists res s new,
    crypto_price respond token_name w
    = (outcome_of res,
       {| upstream := s; exchanges := (exchanges w ++ new)%list |}) /\
    path token_name (upstream w) res s new.
Proof.
  destruct (direct_lookup_path token_name w) as (res & s & new & Heq & Hpath).
  exists res, s, new. split; [|exact Hpath].
  rewrite crypto_price_paths, Heq. destruct res; reflexivity.
Qed.

Lemma split_at_last {A : Type} (pre' post pre : list A) (x y : A) :
  (pre' ++ x :: post = pre ++ [y])%list ->
  (post = [] /\ pre' = pre /\ x = y) \/ In x pre.
Proof.
  intros H. destruct post as [|z post].
  - apply app_inj_tail in H. left. intuition.
  - right. destruct (exists_last (l := z :: post)) as (post' & z' & Hlast);
      [discriminate|].
    rewrite Hlast in H.
    change (pre' ++ x :: post' ++ [z'])%list
      with (pre' ++ (x :: post') ++ [z'])%list in H.
    rewrite app_assoc in H. apply app_inj_tail in H. destruct H as [<- _].
    apply in_or_app. right. left. reflexivity.
Qed.

Lemma map_result_request (f : pyval -> pyval) (id data : pyval) (e : exn) :
  map_result f (usd_of id data) = Raise e -> is_RequestException e = false.
Proof. apply map_result_raises. intros e'. apply usd_of_raises. Qed.

(** Of the exchanges of a call, all but the last got a good reply; the
    last reply, if it makes a call raise, ends the [try] body with that
    exception, and the body ends with a [RequestException] in no other
    way. *)
Lemma path_log (token_name : string) (s0 s : Upstream) (res : result pyval)
  (new : list (string * result Response)) :
  path token_name s0 res s new ->
  exists pre url r,
    new = (pre ++ [(url, r)])%list /\
    (List.length pre <= 2)%nat /\
    (forall x, In x pre -> exists data, payload (snd x) = Ok data) /\
    (forall e, payload r = Raise e -> res = Raise e) /\
    (forall e, res = Raise e -> is_RequestException e = true ->
               payload r = Raise e).
Proof.
  assert (Hnot : forall e, is_RequestException e = false ->
                           is_RequestException e = true -> False)
    by (intros e H1 H2; congruence).
  intros Hpath.
  destruct Hpath as
    [ r1 s1 e H1 Hp1 | r1 s1 data e H1 Hp1 Ht | r1 s1 data H1 Hp1 Ht
    | r1 s1 r2 s2 e (data & H1 & Hp1 & Ht) H2 Hp2
    | r1 s1 r2 s2 sd e (data & H1 & Hp1 & Ht) H2 Hp2 Hsh
    | r1 s1 r2 s2 sd (data & H1 & Hp1 & Ht) H2 Hp2 Hc
    | r1 s1 r2 s2 id r3 s3 e (data & H1 & Hp1 & Ht)
        (sd & H2 & Hp2 & Hc & Hf) H3 Hp3
    | r1 s1 r2 s2 id r3 s3 pd e (data & H1 & Hp1 & Ht)
        (sd & H2 & Hp2 & Hc & Hf) H3 Hp3 Ht3
    | r1 s1 r2 s2 id r3 s3 pd (data & H1 & Hp1 & Ht)
        (sd & H2 & Hp2 & Hc & Hf) H3 Hp3 Ht3
    | r1 s1 r2 s2 id r3 s3 pd (data & H1 & Hp1 & Ht)
        (sd & H2 & Hp2 & Hc & Hf) H3 Hp3 Ht3 ].
  1-3: exists [], (price_url (str_lower token_name)), r1.
  4-6: exists [(price_url (str_lower token_name), r1)],
         (search_url token_name), r2.
  7-10: exists [(price_url (str_lower token_name), r1);
                (search_url token_name, r2)], (price_url (py_str id)), r3.
  all: split; [reflexivity|]; split; [cbn; lia|]; split;
    [ cbn [In]; intros x Hx;
      repeat match goal with
             | H : _ \/ _ |- _ => destruct H as [<- | H]
             | H : False |- _ => destruct H
             end; cbn [snd]; eauto |].
  all: split; intros e' He'; try congruence.
  - intros Hreq. exfalso. apply (Hnot e'); [|exact Hreq].
    injection He' as <-. exact (has_usd_raises _ _ _ Ht).
  - intros Hreq. exfalso. apply (Hnot e'); [|exact Hreq].
    exact (map_result_request _ _ _ _ He').
  - intros Hreq. exfalso. apply (Hnot e'); [|exact Hreq].
    injection He' as <-.
    destruct Hsh as [Hc | [_ Hf]];
      [exact (has_coins_raises _ _ Hc) | exact (first_candidate_raises _ _ Hf)].
  - intros Hreq. exfalso. apply (Hnot e'); [|exact Hreq].
    injection He' as <-. exact (has_usd_raises _ _ _ Ht3).
  - intros Hreq. exfalso. apply (Hnot e'); [|exact Hreq].
    exact (map_result_request _ _ _ _ He').
Qed.

Lemma usd_of_object (id data p : pyval) :
  usd_of id data = Ok p ->
  exists e, py_getitem data id = Ok (PDict e) /\ lookup "usd" e = Some p.
Proof.
  unfold usd_of. destruct (py_getitem data id) as [entry | e0]; [|discriminate].
  destruct entry as [| | | | | |e]; try discriminate.
  unfold py_getitem, hashable. destruct (lookup "usd" e) as [v|] eqn:Hv;
    [|discriminate].
  intros [= ->]. exists e. auto.
Qed.

(** The three values the [try] body can end with. *)
Lemma path_value (token_name : string) (s0 s : Upstream) (outcome : pyval)
  (new : list (string * result Response)) :
  path token_name s0 (Ok outcome) s new ->
  (exists price, outcome = PriceResult token_name price) \/
  outcome = not_found_error token_name \/
  outcome = no_price_error token_name.
Proof.
  intros Hpath. remember (Ok outcome) as res eqn:Hres.
  destruct Hpath; try discriminate Hres.
  - destruct (usd_of _ data); [|discriminate Hres].
    injection Hres as <-. left. eexists. reflexivity.
  - injection Hres as <-. auto.
  - destruct (usd_of id price_data); [|discriminate Hres].
    injection Hres as <-. left. eexists. reflexivity.
  - injection Hres as <-. auto.
Qed.

(** *** What the log of a call tells *)

(** X1. The requests of a call: the price query for the lowercased token
    name always comes first; if a second request is made it is the search
    for the token name as given; if a third is made it is the price query
    for the identifier of the first candidate of the search reply.
    Nothing else is requested. *)
Theorem requests_made (token_name : string) (w : world Upstream) :
  requested (snd (crypto_price respond token_name w))
    = (requested w ++ [price_url (str_lower token_name)])%list
  \/ requested (snd (crypto_price respond token_name w))
    = (requested w ++ [price_url (str_lower token_name);
                       search_url token_name])%list
  \/ exists r2 search_data id,
       In (search_url token_name, r2)
          (exchanges (snd (crypto_price respond token_name w))) /\
       payload r2 = Ok search_data /\
       first_candidate search_data = Ok id /\
       requested (snd (crypto_price respond token_name w))
       = (requested w ++ [price_url (str_lower token_name);
                          search_url token_name;
                          price_url (py_str id)])%list.
Proof.
  destruct (crypto_price_path token_name w) as (res & s & new & -> & Hpath).
  unfold requested. cbn [snd exchanges]. rewrite map_app.
  destruct Hpath as
    [ | | | | |
    | r1 s1 r2 s2 id r3 s3 e _ (sd & H2 & Hp2 & Hc & Hf) _ _
    | r1 s1 r2 s2 id r3 s3 pd e _ (sd & H2 & Hp2 & Hc & Hf) _ _ _
    | r1 s1 r2 s2 id r3 s3 pd _ (sd & H2 & Hp2 & Hc & Hf) _ _ _
    | r1 s1 r2 s2 id r3 s3 pd _ (sd & H2 & Hp2 & Hc & Hf) _ _ _ ].
  1-3: left; reflexivity.
  1-3: right; left; reflexivity.
  all: right; right; exists r2, sd, id;
    (split; [apply in_or_app; right; right; left; reflexivity|]); auto.
Qed.

(** X2. No request follows a failure: an exchange whose reply makes
    [get], [raise_for_status] or [json] raise is the last one of the
    call, and the outcome is what the handlers make of that exception. *)
Theorem failure_ends_call (token_name : string) (w : world Upstream)
  (pre post : list (string * result Response)) (url : string)
  (r : result Response) (e : exn) :
  exchanges (snd (crypto_price respond token_name w))
    = (exchanges w ++ pre ++ (url, r) :: post)%list ->
  payload r = Raise e ->
  post = [] /\ fst (crypto_price respond token_name w) = handler e.
Proof.
  destruct (crypto_price_path token_name w) as (res & s & new & -> & Hpath).
  cbn [fst snd exchanges]. intros Hlog Hp.
  apply app_inv_head in Hlog.
  destruct (path_log _ _ _ _ _ Hpath)
    as (pre0 & url0 & r0 & -> & _ & Hgood & Hfault & _).
  symmetry in Hlog.
  destruct (split_at_last _ _ _ _ _ Hlog) as [(-> & _ & [= <- <-]) | Hin].
  - split; [reflexivity|]. rewrite (Hfault _ Hp). reflexivity.
  - destruct (Hgood _ Hin) as [data Hdata]. cbn [snd] in Hdata. congruence.
Qed.

(** X3. A price is never made up: whenever the outcome is a price result,
    the last reply of the call is a good one whose data has, under the
    identifier looked up, an object with a ["usd"] field, and the price
    string renders that field: after one request in the plain form, for
    the lowercased token name; after three in the form with the
    identifier appended.  No price is returned after two requests. *)
Theorem price_is_usd_field (token_name price : string) (w : world Upstream) :
  fst (crypto_price respond token_name w) = PriceResult token_name price ->
  exists pre url r data id e p,
    exchanges (snd (crypto_price respond token_name w))
    = (exchanges w ++ pre ++ [(url, r)])%list /\
    payload r = Ok data /\
    py_getitem data id = Ok (PDict e) /\
    lookup "usd" e = Some p /\
    ((pre = [] /\ url = price_url (str_lower token_name) /\
      id = PStr (str_lower token_name) /\
      price = "$" ++ py_str p ++ " USD") \/
     (List.length pre = 2%nat /\ url = price_url (py_str id) /\
      price = "$" ++ py_str p ++ " USD (found as " ++ py_str id ++ ")")).
Proof.
  destruct (crypto_price_path token_name w) as (res & s & new & -> & Hpath).
  cbn [fst snd exchanges]. intros Hout.
  assert (Hhandler : forall e, handler e <> PriceResult token_name price).
  { intros e. unfold handler. destruct (is_RequestException e); discriminate. }
  destruct Hpath as
    [ r1 s1 e H1 Hp1 | r1 s1 data e H1 Hp1 Ht | r1 s1 data H1 Hp1 Ht
    | r1 s1 r2 s2 e _ H2 Hp2
    | r1 s1 r2 s2 sd e _ H2 Hp2 Hsh
    | r1 s1 r2 s2 sd _ H2 Hp2 Hc
    | r1 s1 r2 s2 id r3 s3 e _ _ H3 Hp3
    | r1 s1 r2 s2 id r3 s3 pd e _ _ H3 Hp3 Ht3
    | r1 s1 r2 s2 id r3 s3 pd _ _ H3 Hp3 Ht3
    | r1 s1 r2 s2 id r3 s3 pd _ _ H3 Hp3 Ht3 ];
    cbn [outcome_of] in Hout;
    try (exfalso; exact (Hhandler _ Hout));
    try discriminate Hout.
  - destruct (usd_of (PStr (str_lower token_name)) data) as [p | e0] eqn:Hu;
      cbn [map_result outcome_of] in Hout;
      [|exfalso; exact (Hhandler _ Hout)].
    destruct (usd_of_object _ _ _ Hu) as (e & Hentry & Husd).
    injection Hout as <-.
    exists [], (price_url (str_lower token_name)), r1, data,
      (PStr (str_lower token_name)), e, p.
    repeat split; auto.
  - destruct (usd_of id pd) as [p | e0] eqn:Hu;
      cbn [map_result outcome_of] in Hout;
      [|exfalso; exact (Hhandler _ Hout)].
    destruct (usd_of_object _ _ _ Hu) as (e & Hentry & Husd).
    injection Hout as <-.
    exists [(price_url (str_lower token_name), r1);
            (search_url token_name, r2)],
      (price_url (py_str id)), r3, pd, id, e, p.
    repeat split; auto.
Qed.

(** X4. A failed fetch is a failed request: whenever the outcome is the
    error ["Failed to fetch crypto price: <details>"], the last exchange
    of the call is one where [get], [raise_for_status] or [json] raised a
    [RequestException], and the details are its message. *)
Theorem failed_fetch_is_failed_request (token_name details : string)
  (w : world Upstream) :
  fst (crypto_price respond token_name w)
    = ErrorResult ("Failed to fetch crypto price: " ++ details) ->
  exists pre url r e,
    exchanges (snd (crypto_price respond token_name w))
    = (exchanges w ++ pre ++ [(url, r)])%list /\
    payload r = Raise e /\
    is_RequestException e = true /\
    details = exc_str e.
Proof.
  destruct (crypto_price_path token_name w) as (res & s & new & -> & Hpath).
  cbn [fst snd exchanges]. intros Hout.
  destruct (path_log _ _ _ _ _ Hpath)
    as (pre & url & r & -> & _ & _ & _ & Hreq).
  assert (Hraise : exists e, res = Raise e /\ is_RequestException e = true
                             /\ details = exc_str e).
  { destruct res as [outcome | e]; cbn [outcome_of] in Hout.
    - exfalso. subst outcome.
      destruct (path_value _ _ _ _ _ Hpath) as [[price Hv] | [Hv | Hv]];
        discriminate Hv.
    - exists e. split; [reflexivity|].
      unfold handler in Hout. destruct (is_RequestException e).
      + injection Hout as Hout. auto.
      + discriminate Hout. }
  destruct Hraise as (e & -> & He & Hd).
  exists pre, url, r, e. auto.
Qed.

Lemma length_append (a b : string) :
  String.length (a ++ b) = (String.length a + String.length b)%nat.
Proof. induction a as [|c a IH]; cbn; [reflexivity|]. rewrite IH. reflexivity. Qed.

Lemma messages_differ (token_name : string) :
  no_price_error token_name <> not_found_error token_name.
Proof.
  unfold no_price_error, not_found_error, ErrorResult. intros [= H].
  apply (f_equal String.length) in H.
  repeat (rewrite ?length_append in H; cbn [String.length] in H). lia.
Qed.

(** X5. What "Could not find <tokenName> or its price." tells: whenever
    it is the outcome, exactly two requests were made, both got good
    replies, the price data had no USD figure for the lowercased token
    name, and the test [search_data and search_data['coins']] of the
    search reply was false. *)
Theorem not_found_is_empty_search (token_name : string) (w : world Upstream) :
  fst (crypto_price respond token_name w)
    = ErrorResult ("Could not find " ++ token_name ++ " or its price.") ->
  exists r1 r2 data search_data,
    exchanges (snd (crypto_price respond token_name w))
    = (exchanges w ++ [(price_url (str_lower token_name), r1);
                       (search_url token_name, r2)])%list /\
    payload r1 = Ok data /\
    has_usd (PStr (str_lower token_name)) data = Ok false /\
    payload r2 = Ok search_data /\
    has_coins search_data = Ok false.
Proof.
  destruct (crypto_price_path token_name w) as (res & s & new & -> & Hpath).
  cbn [fst snd exchanges]. intros Hout.
  assert (Hhandler : forall e, handler e <> not_found_error token_name).
  { intros e. unfold handler. destruct (is_RequestException e); discriminate. }
  destruct Hpath as
    [ r1 s1 e H1 Hp1 | r1 s1 data e H1 Hp1 Ht | r1 s1 data H1 Hp1 Ht
    | r1 s1 r2 s2 e _ H2 Hp2
    | r1 s1 r2 s2 sd e _ H2 Hp2 Hsh
    | r1 s1 r2 s2 sd (data & H1 & Hp1 & Ht) H2 Hp2 Hc
    | r1 s1 r2 s2 id r3 s3 e _ _ H3 Hp3
    | r1 s1 r2 s2 id r3 s3 pd e _ _ H3 Hp3 Ht3
    | r1 s1 r2 s2 id r3 s3 pd _ _ H3 Hp3 Ht3
    | r1 s1 r2 s2 id r3 s3 pd _ _ H3 Hp3 Ht3 ];
    cbn [outcome_of] in Hout;
    try (exfalso; exact (Hhandler _ Hout)).
  - destruct (usd_of _ data); cbn [map_result outcome_of] in Hout;
      [discriminate Hout | exfalso; exact (Hhandler _ Hout)].
  - exists r1, r2, data, sd. auto.
  - destruct (usd_of id pd); cbn [map_result outcome_of] in Hout;
      [discriminate Hout | exfalso; exact (Hhandler _ Hout)].
  - exfalso. exact (messages_differ _ Hout).
Qed.

(** *** Replies of unexpected shape *)

(** X6. Nothing to search in: when the direct lookup finds no USD figure
    and the search reply is any falsy value ([null], [false], [0], an
    empty string, list or object), or an object whose ["coins"] is falsy
    ([null], an empty list, ...), the outcome is
    ["Could not find <tokenName> or its price."] after two requests. *)
Theorem falsy_search_reply (token_name : string) (w : world Upstream)
  (data search_data : pyval) (s1 s2 : Upstream) :
  answers (upstream w) (price_url (str_lower token_name)) data s1 ->
  no_price (str_lower token_name) data ->
  answers s1 (search_url token_name) search_data s2 ->
  truthy search_data = false \/
  (exists sd coins, search_data = PDict sd /\
                    lookup "coins" sd = Some coins /\ truthy coins = false) ->
  fst (crypto_price respond token_name w)
    = ErrorResult ("Could not find " ++ token_name ++ " or its price.")
  /\ upstream (snd (crypto_price respond token_name w)) = s2
  /\ requested (snd (crypto_price respond token_name w))
     = (requested w ++ [price_url (str_lower token_name);
                        search_url token_name])%list.
Proof.
  intros (r1 & Hr1 & Hp1) Hmiss (r2 & Hr2 & Hp2) Hfalsy.
  assert (Hnone : has_coins search_data = Ok false).
  { unfold has_coins. destruct Hfalsy as [-> | (sd & coins & -> & Hc & Hf)];
      [reflexivity|].
    unfold py_getitem, hashable. rewrite Hc, Hf.
    destruct (truthy (PDict sd)); reflexivity. }
  rewrite (miss_falls_back _ _ _ _ _ Hr1 Hp1 Hmiss).
  unfold search_fallback. rewrite upstream_logged, Hr2, Hp2, Hnone.
  cbn [conclude fst snd not_found_error].
  rewrite !requested_logged, <- !app_assoc. auto.
Qed.

(** X7. A search reply that is not an object: when the direct lookup
    finds no USD figure and the search reply is a truthy value other than
    an object (a non-empty list or string, a non-zero number, [true]),
    subscripting it with ['coins'] raises [TypeError]; the outcome is the
    error of the catch-all handler and no third request is made. *)
Theorem search_reply_not_object (token_name : string) (w : world Upstream)
  (data search_data : pyval) (s1 s2 : Upstream) :
  answers (upstream w) (price_url (str_lower token_name)) data s1 ->
  no_price (str_lower token_name) data ->
  answers s1 (search_url token_name) search_data s2 ->
  truthy search_data = true ->
  is_object search_data = false ->
  (exists details,
      fst (crypto_price respond token_name w)
      = ErrorResult ("An unexpected error occurred: " ++ details))
  /\ requested (snd (crypto_price respond token_name w))
     = (requested w ++ [price_url (str_lower token_name);
                        search_url token_name])%list.
Proof.
  intros (r1 & Hr1 & Hp1) Hmiss (r2 & Hr2 & Hp2) Htrue Hobj.
  assert (Hraise : exists msg, has_coins search_data = Raise (TypeError msg)).
  { unfold has_coins. rewrite Htrue.
    destruct search_data; try discriminate Hobj; eexists; reflexivity. }
  destruct Hraise as [msg Hraise].
  rewrite (miss_falls_back _ _ _ _ _ Hr1 Hp1 Hmiss).
  unfold search_fallback. rewrite upstream_logged, Hr2, Hp2, Hraise.
  cbn [conclude fst snd handler is_RequestException exc_str].
  rewrite !requested_logged, <- !app_assoc. split; [|reflexivity].
  exists msg. reflexivity.
Qed.

(** X8. An entry that is not a container: when the price data has, under
    the lowercased token name, [null], a boolean or a number, the test
    ['usd' in data[key]] raises [TypeError]; the outcome is the error of
    the catch-all handler and the search is not tried. *)
Theorem scalar_entry (token_name : string) (w : world Upstream)
  (d : list (string * pyval)) (entry : pyval) (s : Upstream) :
  answers (upstream w) (price_url (str_lower token_name)) (PDict d) s ->
  lookup (str_lower token_name) d = Some entry ->
  is_scalar entry = true ->
  (exists details,
      fst (crypto_price respond token_name w)
      = ErrorResult ("An unexpected error occurred: " ++ details))
  /\ requested (snd (crypto_price respond token_name w))
     = (requested w ++ [price_url (str_lower token_name)])%list.
Proof.
  intros (r & Hr & Hp) Hd Hscalar.
  assert (Hraise : exists msg,
             has_usd (PStr (str_lower token_name)) (PDict d)
             = Raise (TypeError msg)).
  { unfold has_usd, py_in at 1, py_getitem, hashable. rewrite Hd.
    destruct entry; try discriminate Hscalar; eexists; reflexivity. }
  destruct Hraise as [msg Hraise].
  rewrite crypto_price_paths. unfold direct_lookup. rewrite Hr, Hp, Hraise.
  cbn [conclude fst snd handler is_RequestException exc_str].
  rewrite requested_logged. split; [|reflexivity].
  exists msg. reflexivity.
Qed.

Lemma candidate_id (sd first : list (string * pyval)) (rest : list pyval)
  (id : pyval) :
  lookup "coins" sd = Some (PList (PDict first :: rest)) ->
  lookup "id" first = Some id ->
  has_coins (PDict sd) = Ok true /\ first_candidate (PDict sd) = Ok id.
Proof.
  intros Hcoins Hid. destruct (first_of_coins _ _ _ Hcoins) as [Hfound Hfirst].
  split; [exact Hfound|]. rewrite Hfirst. unfold py_getitem, hashable.
  rewrite Hid. reflexivity.
Qed.

(** X9. An identifier that is not a string is never priced: when the
    first candidate's ["id"] is [null], a boolean or a number, the third
    request asks for its rendering, but the test [first_coin_id in
    price_data] against an object, whose keys are strings, is false:
    the outcome is ["Could not find price for <tokenName>."] whatever the
    price data holds. *)
Theorem scalar_id_finds_no_price (token_name : string) (w : world Upstream)
  (data id : pyval) (sd first pd : list (string * pyval))
  (rest : list pyval) (s1 s2 s3 : Upstream) :
  answers (upstream w) (price_url (str_lower token_name)) data s1 ->
  no_price (str_lower token_name) data ->
  answers s1 (search_url token_name) (PDict sd) s2 ->
  lookup "coins" sd = Some (PList (PDict first :: rest)) ->
  lookup "id" first = Some id ->
  is_scalar id = true ->
  answers s2 (price_url (py_str id)) (PDict pd) s3 ->
  fst (crypto_price respond token_name w)
    = ErrorResult ("Could not find price for " ++ token_name ++ ".")
  /\ requested (snd (crypto_price respond token_name w))
     = (requested w ++ [price_url (str_lower token_name);
                        search_url token_name; price_url (py_str id)])%list.
Proof.
  intros (r1 & Hr1 & Hp1) Hmiss (r2 & Hr2 & Hp2) Hcoins Hid Hscalar
    (r3 & Hr3 & Hp3).
  destruct (candidate_id _ _ _ _ Hcoins Hid) as [Hfound Hfirst].
  assert (Hnone : has_usd id (PDict pd) = Ok false).
  { unfold has_usd, py_in, hashable.
    destruct id; try discriminate Hscalar; reflexivity. }
  rewrite (miss_falls_back _ _ _ _ _ Hr1 Hp1 Hmiss).
  unfold search_fallback. rewrite upstream_logged, Hr2, Hp2, Hfound, Hfirst.
  unfold fallback_price. rewrite upstream_logged, Hr3, Hp3, Hnone.
  cbn [conclude fst snd no_price_error].
  rewrite !requested_logged, <- !app_assoc. auto.
Qed.

(** X10. An identifier that is a list or an object cannot be looked up:
    the third request is still made, for its rendering, and when the
    price data is an object the test [first_coin_id in price_data] raises
    [TypeError] (unhashable); the outcome is the error of the catch-all
    handler. *)
Theorem container_id (token_name : string) (w : world Upstream)
  (data id : pyval) (sd first pd : list (string * pyval))
  (rest : list pyval) (s1 s2 s3 : Upstream) :
  answers (upstream w) (price_url (str_lower token_name)) data s1 ->
  no_price (str_lower token_name) data ->
  answers s1 (search_url token_name) (PDict sd) s2 ->
  lookup "coins" sd = Some (PList (PDict first :: rest)) ->
  lookup "id" first = Some id ->
  hashable id = false ->
  answers s2 (price_url (py_str id)) (PDict pd) s3 ->
  (exists details,
      fst (crypto_price respond token_name w)
      = ErrorResult ("An unexpected error occurred: " ++ details))
  /\ requested (snd (crypto_price respond token_name w))
     = (requested w ++ [price_url (str_lower token_name);
                        search_url token_name; price_url (py_str id)])%list.
Proof.
  intros (r1 & Hr1 & Hp1) Hmiss (r2 & Hr2 & Hp2) Hcoins Hid Hhash
    (r3 & Hr3 & Hp3).
  destruct (candidate_id _ _ _ _ Hcoins Hid) as [Hfound Hfirst].
  assert (Hraise : exists msg, has_usd id (PDict pd) = Raise (TypeError msg)).
  { unfold has_usd, py_in. rewrite Hhash. eexists. reflexivity. }
  destruct Hraise as [msg Hraise].
  rewrite (miss_falls_back _ _ _ _ _ Hr1 Hp1 Hmiss).
  unfold search_fallback. rewrite upstream_logged, Hr2, Hp2, Hfound, Hfirst.
  unfold fallback_price. rewrite upstream_logged, Hr3, Hp3, Hraise.
  cbn [conclude fst snd handler is_RequestException exc_str].
  rewrite !requested_logged, <- !app_assoc. split; [|reflexivity].
  exists msg. reflexivity.
Qed.

(** X11. What "Could not find price for <tokenName>." tells: whenever it
    is the outcome, three requests were made and all got good replies;
    the third asked for the identifier of the first candidate, and the
    test [first_coin_id in price_data and 'usd' in
    price_data[first_coin_id]] was false. *)
Theorem no_price_is_third_miss (token_name : string) (w : world Upstream) :
  fst (crypto_price respond token_name w)
    = ErrorResult ("Could not find price for " ++ token_name ++ ".") ->
  exists r1 r2 r3 search_data id price_data,
    exchanges (snd (crypto_price respond token_name w))
    = (exchanges w ++ [(price_url (str_lower token_name), r1);
                       (search_url token_name, r2);
                       (price_url (py_str id), r3)])%list /\
    payload r2 = Ok search_data /\
    first_candidate search_data = Ok id /\
    payload r3 = Ok price_data /\
    has_usd id price_data = Ok false.
Proof.
  destruct (crypto_price_path token_name w) as (res & s & new & -> & Hpath).
  cbn [fst snd exchanges]. intros Hout.
  assert (Hhandler : forall e, handler e <> no_price_error token_name).
  { intros e. unfold handler. destruct (is_RequestException e); discriminate. }
  destruct Hpath as
    [ r1 s1 e H1 Hp1 | r1 s1 data e H1 Hp1 Ht | r1 s1 data H1 Hp1 Ht
    | r1 s1 r2 s2 e _ H2 Hp2
    | r1 s1 r2 s2 sd e _ H2 Hp2 Hsh
    | r1 s1 r2 s2 sd _ H2 Hp2 Hc
    | r1 s1 r2 s2 id r3 s3 e _ _ H3 Hp3
    | r1 s1 r2 s2 id r3 s3 pd e _ _ H3 Hp3 Ht3
    | r1 s1 r2 s2 id r3 s3 pd _ _ H3 Hp3 Ht3
    | r1 s1 r2 s2 id r3 s3 pd _ (sd & H2 & Hp2 & Hc & Hf) H3 Hp3 Ht3 ];
    cbn [outcome_of] in Hout;
    try (exfalso; exact (Hhandler _ Hout)).
  - destruct (usd_of _ data); cbn [map_result outcome_of] in Hout;
      [discriminate Hout | exfalso; exact (Hhandler _ Hout)].
  - exfalso. symmetry in Hout. exact (messages_differ _ Hout).
  - destruct (usd_of id pd); cbn [map_result outcome_of] in Hout;
      [discriminate Hout | exfalso; exact (Hhandler _ Hout)].
  - exists r1, r2, r3, sd, id, pd. auto.
Qed.

(** X12. Letter case matters for the search only: two token names with
    the same lowercase form make the same first request, and on a direct
    hit both calls return the same price string, next to the name as
    given, and leave the same world. *)
Theorem same_lowercase_same_direct_price (token_name other_name : string)
  (w : world Upstream) (d e : list (string * pyval)) (price : pyval)
  (s : Upstream) :
  str_lower token_name = str_lower other_name ->
  answers (upstream w) (price_url (str_lower token_name)) (PDict d) s ->
  lookup (str_lower token_name) d = Some (PDict e) ->
  lookup "usd" e = Some price ->
  fst (crypto_price respond token_name w)
    = PriceResult token_name ("$" ++ py_str price ++ " USD")
  /\ fst (crypto_price respond other_name w)
    = PriceResult other_name ("$" ++ py_str price ++ " USD")
  /\ snd (crypto_price respond token_name w)
     = snd (crypto_price respond other_name w).
Proof.
  intros Hlower (r & Hr & Hp) Hd He.
  destruct (has_usd_hit _ _ _ _ Hd He) as [Hhit Husd].
  rewrite !crypto_price_paths. unfold direct_lookup.
  rewrite <- Hlower, Hr, Hp, Hhit, Husd. cbn [map_result conclude fst snd].
  auto.
Qed.

End WithService.

(** ** The scenarios, run *)

Import AsciiRuntime Service Scenario.

(** [crypto_price("bitcoin")] with the price service holding 65000 USD. *)
Lemma direct_hit_witness :
  fst (crypto_price bitcoin_service "bitcoin" (start tt))
    = PriceResult "bitcoin" "$65000 USD"
  /\ upstream (snd (crypto_price bitcoin_service "bitcoin" (start tt))) = tt
  /\ requested (snd (crypto_price bitcoin_service "bitcoin" (start tt)))
     = [price_url "bitcoin"].
Proof.
  refine (direct_hit unit bitcoin_service "bitcoin" (start tt)
            bitcoin_prices [("usd", PInt 65000)] (PInt 65000) tt _ _ _).
  - exists (json_reply (PDict bitcoin_prices)). split; reflexivity.
  - reflexivity.
  - reflexivity.
Defined.

(** [crypto_price("Doge")]: no price for "doge", found as [dogecoin]. *)
Lemma fallback_hit_witness :
  fst (crypto_price doge_service "Doge" (start tt))
    = PriceResult "Doge" "$0.15625 USD (found as dogecoin)"
  /\ upstream (snd (crypto_price doge_service "Doge" (start tt))) = tt
  /\ requested (snd (crypto_price doge_service "Doge" (start tt)))
     = [price_url "doge"; search_url "Doge"; price_url "dogecoin"].
Proof.
  refine (fallback_hit unit doge_service "Doge" (start tt) (PDict [])
            doge_candidates [("id", PStr "dogecoin")]
            [PDict [("id", PStr "dogelon-mars")]] "dogecoin" doge_prices
            [("usd", PFloat (S754_finite false 5 (-5)))]
            (PFloat (S754_finite false 5 (-5))) tt tt tt _ _ _ _ _ _ _ _).
  - exists (json_reply (PDict [])). split; reflexivity.
  - apply no_entry. reflexivity.
  - exists (json_reply (PDict doge_candidates)). split; reflexivity.
  - reflexivity.
  - reflexivity.
  - exists (json_reply (PDict doge_prices)). split; reflexivity.
  - reflexivity.
  - reflexivity.
Defined.

(** [crypto_price("nonexistenttoken")], the search answering with an
    empty list of candidates, and with the empty object. *)
Lemma no_candidates_witness :
  fst (crypto_price (unknown_service (PDict [("coins", PList [])]))
         "nonexistenttoken" (start tt))
    = ErrorResult "Could not find nonexistenttoken or its price."
  /\ fst (crypto_price (unknown_service (PDict []))
            "nonexistenttoken" (start tt))
    = ErrorResult "Could not find nonexistenttoken or its price.".
Proof.
  split.
  - refine (proj1 (no_candidates unit (unknown_service _) "nonexistenttoken"
                     (start tt) (PDict []) [("coins", PList [])] tt tt
                     _ _ _ _)).
    + exists (json_reply (PDict [])). split; reflexivity.
    + apply no_entry. reflexivity.
    + exists (json_reply (PDict [("coins", PList [])])). split; reflexivity.
    + right. reflexivity.
  - refine (proj1 (no_candidates unit (unknown_service _) "nonexistenttoken"
                     (start tt) (PDict []) [] tt tt _ _ _ _)).
    + exists (json_reply (PDict [])). split; reflexivity.
    + apply no_entry. reflexivity.
    + exists (json_reply (PDict [])). split; reflexivity.
    + left. reflexivity.
Defined.

(** C3 as stated fails: a search reply that is a non-empty object without
    a ["coins"] field makes [search_data['coins']] raise [KeyError], and
    the outcome is the error of the catch-all handler. *)
Lemma absent_coins_counterexample :
  no_price "nonexistenttoken" (PDict []) /\
  lookup "coins" no_coins_field = None /\
  fst (crypto_price (unknown_service (PDict no_coins_field))
         "nonexistenttoken" (start tt))
    = ErrorResult "An unexpected error occurred: 'coins'" /\
  fst (crypto_price (unknown_service (PDict no_coins_field))
         "nonexistenttoken" (start tt))
    <> ErrorResult "Could not find nonexistenttoken or its price.".
Proof.
  split; [apply no_entry; reflexivity|].
  split; [reflexivity|]. split; [reflexivity|]. discriminate.
Qed.

(** The first candidate for "Doge" is priced under no currency. *)
Lemma candidate_without_price_witness :
  fst (crypto_price unpriced_service "Doge" (start tt))
    = ErrorResult "Could not find price for Doge."
  /\ upstream (snd (crypto_price unpriced_service "Doge" (start tt))) = tt
  /\ requested (snd (crypto_price unpriced_service "Doge" (start tt)))
     = [price_url "doge"; search_url "Doge"; price_url "dogecoin"].
Proof.
  refine (candidate_without_price unit unpriced_service "Doge" (start tt)
            (PDict []) (PDict [("dogecoin", PDict [])]) doge_candidates
            [("id", PStr "dogecoin")] [PDict [("id", PStr "dogelon-mars")]]
            "dogecoin" tt tt tt _ _ _ _ _ _ _).
  - exists (json_reply (PDict [])). split; reflexivity.
  - apply no_entry. reflexivity.
  - exists (json_reply (PDict doge_candidates)). split; reflexivity.
  - reflexivity.
  - reflexivity.
  - exists (json_reply (PDict [("dogecoin", PDict [])])). split; reflexivity.
  - apply (no_usd _ _ []); reflexivity.
Defined.

(** The first candidate for "Doge" has no ["id"]. *)
Lemma candidate_without_id_witness :
  fst (crypto_price nameless_service "Doge" (start tt))
    = ErrorResult "An unexpected error occurred: 'id'"
  /\ upstream (snd (crypto_price nameless_service "Doge" (start tt))) = tt
  /\ requested (snd (crypto_price nameless_service "Doge" (start tt)))
     = [price_url "doge"; search_url "Doge"].
Proof.
  refine (candidate_without_id unit nameless_service "Doge" (start tt)
            (PDict []) nameless_candidates [("name", PStr "Dogecoin")] []
            tt tt _ _ _ _ _).
  - exists (json_reply (PDict [])). split; reflexivity.
  - apply no_entry. reflexivity.
  - exists (json_reply (PDict nameless_candidates)). split; reflexivity.
  - reflexivity.
  - reflexivity.
Defined.


(** A call for "Doge" and its repetition, against fixed data. *)
Lemma same_call_same_outcome_witness :
  fst (crypto_price doge_service "Doge" (start tt))
    = fst (crypto_price doge_service "Doge"
             (snd (crypto_price doge_service "Doge" (start tt))))
  /\ exists new,
       exchanges (snd (crypto_price doge_service "Doge" (start tt)))
       = (exchanges (start tt) ++ new)%list /\
       exchanges (snd (crypto_price doge_service "Doge"
                         (snd (crypto_price doge_service "Doge" (start tt)))))
       = (exchanges (snd (crypto_price doge_service "Doge" (start tt)))
            ++ new)%list.
Proof.
  refine (same_call_same_outcome unit doge_service "Doge" (start tt)
            (snd (crypto_price doge_service "Doge" (start tt))) _).
  intros s s' url. reflexivity.
Defined.

(** The search request times out; the price request meets a status 429. *)
Lemma transport_failure_reported_witness :
  fst (crypto_price script "Doge" (start [json_reply (PDict []); timeout]))
    = ErrorResult "Failed to fetch crypto price: HTTPSConnectionPool(host='api.coingecko.com', port=443): Read timed out."
  /\ fst (crypto_price script "Doge" (start [too_many_requests]))
    = ErrorResult ("Failed to fetch crypto price: "
                   ++ too_many_requests_message).
Proof.
  split.
  - refine (transport_failure_reported (list (result Response)) script "Doge"
              [json_reply (PDict []); timeout] (search_url "Doge") timeout
              timeout_error _ _).
    + vm_compute. right. left. reflexivity.
    + apply get_fails. reflexivity.
  - refine (transport_failure_reported (list (result Response)) script "Doge"
              [too_many_requests] (price_url "doge") too_many_requests
              (RequestException too_many_requests_message) _ _).
    + vm_compute. left. reflexivity.
    + apply bad_status; [cbn; lia | reflexivity].
Defined.

(** C5 as stated fails for a status that is neither a success nor a
    client or server error: [raise_for_status()] does nothing for a
    response with status 301, the body is decoded, and the outcome is
    the price, not an error. *)
Lemma redirect_status_counterexample :
  success_status (status_code moved) = false /\
  In (price_url "bitcoin", Ok moved)
     (exchanges (snd (crypto_price script "bitcoin" (start [Ok moved])))) /\
  fst (crypto_price script "bitcoin" (start [Ok moved]))
    = PriceResult "bitcoin" "$65000 USD".
Proof.
  split; [reflexivity|]. split; [left; reflexivity | reflexivity].
Qed.

(** The price data maps "bitcoin" to [null]; the body of the search reply
    does not decode and the library raises a [ValueError] for it. *)
Lemma unexpected_failure_reported_witness :
  fst (crypto_price script "bitcoin" (start [null_entry]))
    = ErrorResult "An unexpected error occurred: argument of type 'NoneType' is not iterable"
  /\ fst (crypto_price script "Doge"
            (start [json_reply (PDict []);
                    undecodable (OtherException decode_message)]))
    = ErrorResult "An unexpected error occurred: Expecting value: line 1 column 1 (char 0)".
Proof.
  split.
  - refine (unexpected_failure_reported (list (result Response)) script
              "bitcoin" [null_entry]
              (TypeError "argument of type 'NoneType' is not iterable") _).
    apply operator_raises; [|reflexivity].
    intros url r Hin. vm_compute in Hin.
    destruct Hin as [[= <- <-] | []]. eexists. reflexivity.
  - refine (unexpected_failure_reported (list (result Response)) script
              "Doge" [json_reply (PDict []); undecodable _]
              (OtherException decode_message) _).
    apply (call_raises _ _ _ _ _ (search_url "Doge")
             (undecodable (OtherException decode_message)));
      [|reflexivity|reflexivity].
    vm_compute. right. left. reflexivity.
Defined.

(** C4 as stated fails: [Response.json()] of requests 2.27 and later
    raises [requests.exceptions.JSONDecodeError], a [RequestException],
    for a body that is not JSON.  The request itself succeeded with a
    good status, yet the first handler takes the exception and the
    outcome carries the message of a failed fetch, not the message of
    the catch-all handler. *)
Lemma malformed_json_counterexample :
  ~ transport_failure (undecodable (RequestException decode_message))
      (RequestException decode_message) /\
  fst (crypto_price script "bitcoin"
         (start [undecodable (RequestException decode_message)]))
    = ErrorResult "Failed to fetch crypto price: Expecting value: line 1 column 1 (char 0)" /\
  fst (crypto_price script "bitcoin"
         (start [undecodable (RequestException decode_message)]))
    <> ErrorResult ("An unexpected error occurred: " ++ decode_message).
Proof.
  split; [|split].
  - intros H. inversion H as [| response msg Hrange Hmsg]; subst.
    cbn in Hrange. lia.
  - reflexivity.
  - discriminate.
Qed.


(** The search for "Doge" times out: the failure is the last exchange. *)
Lemma failure_ends_call_witness :
  @nil (string * result Response) = []
  /\ fst (crypto_price script "Doge" (start [json_reply (PDict []); timeout]))
     = handler timeout_error.
Proof.
  refine (failure_ends_call (list (result Response)) script "Doge"
            (start [json_reply (PDict []); timeout])
            [(price_url "doge", json_reply (PDict []))] []
            (search_url "Doge") timeout timeout_error _ _); reflexivity.
Defined.

(** The price of "bitcoin" is the ["usd"] field of its entry. *)
Lemma price_is_usd_field_witness :
  exists pre url r data id e p,
    exchanges (snd (crypto_price bitcoin_service "bitcoin" (start tt)))
    = (exchanges (start tt) ++ pre ++ [(url, r)])%list /\
    payload r = Ok data /\
    py_getitem data id = Ok (PDict e) /\
    lookup "usd" e = Some p /\
    ((pre = [] /\ url = price_url (str_lower "bitcoin") /\
      id = PStr (str_lower "bitcoin") /\
      "$65000 USD" = "$" ++ py_str p ++ " USD") \/
     (List.length pre = 2%nat /\ url = price_url (py_str id) /\
      "$65000 USD" = "$" ++ py_str p ++ " USD (found as " ++ py_str id ++ ")")).
Proof.
  refine (price_is_usd_field unit bitcoin_service "bitcoin" "$65000 USD"
            (start tt) _).
  reflexivity.
Defined.

(** A status 429 on the first request. *)
Lemma failed_fetch_is_failed_request_witness :
  exists pre url r e,
    exchanges (snd (crypto_price script "Doge" (start [too_many_requests])))
    = (exchanges (start [too_many_requests]) ++ pre ++ [(url, r)])%list /\
    payload r = Raise e /\
    is_RequestException e = true /\
    too_many_requests_message = exc_str e.
Proof.
  refine (failed_fetch_is_failed_request (list (result Response)) script
            "Doge" too_many_requests_message
            (start [too_many_requests]) _).
  reflexivity.
Defined.

(** "nonexistenttoken" with an empty list of candidates. *)
Lemma not_found_is_empty_search_witness :
  exists r1 r2 data search_data,
    exchanges (snd (crypto_price (unknown_service (PDict [("coins", PList [])]))
                      "nonexistenttoken" (start tt)))
    = (exchanges (start tt)
         ++ [(price_url (str_lower "nonexistenttoken"), r1);
             (search_url "nonexistenttoken", r2)])%list /\
    payload r1 = Ok data /\
    has_usd (PStr (str_lower "nonexistenttoken")) data = Ok false /\
    payload r2 = Ok search_data /\
    has_coins search_data = Ok false.
Proof.
  refine (not_found_is_empty_search unit
            (unknown_service (PDict [("coins", PList [])]))
            "nonexistenttoken" (start tt) _).
  reflexivity.
Defined.

(** The search answers [null], and an object whose ["coins"] is [null]. *)
Lemma falsy_search_reply_witness :
  fst (crypto_price (unknown_service PNone) "nonexistenttoken" (start tt))
    = ErrorResult "Could not find nonexistenttoken or its price."
  /\ fst (crypto_price (unknown_service (PDict [("coins", PNone)]))
            "nonexistenttoken" (start tt))
    = ErrorResult "Could not find nonexistenttoken or its price.".
Proof.
  split.
  - refine (proj1 (falsy_search_reply unit (unknown_service PNone)
                     "nonexistenttoken" (start tt) (PDict []) PNone tt tt
                     _ _ _ _)).
    + exists (json_reply (PDict [])). split; reflexivity.
    + apply no_entry. reflexivity.
    + exists (json_reply PNone). split; reflexivity.
    + left. reflexivity.
  - refine (proj1 (falsy_search_reply unit
                     (unknown_service (PDict [("coins", PNone)]))
                     "nonexistenttoken" (start tt) (PDict [])
                     (PDict [("coins", PNone)]) tt tt _ _ _ _)).
    + exists (json_reply (PDict [])). split; reflexivity.
    + apply no_entry. reflexivity.
    + exists (json_reply (PDict [("coins", PNone)])). split; reflexivity.
    + right. exists [("coins", PNone)], PNone. repeat split; reflexivity.
Defined.

(** The search answers with a bare list of candidates. *)
Lemma search_reply_not_object_witness :
  (exists details,
      fst (crypto_price bare_service "Doge" (start tt))
      = ErrorResult ("An unexpected error occurred: " ++ details))
  /\ requested (snd (crypto_price bare_service "Doge" (start tt)))
     = [price_url "doge"; search_url "Doge"].
Proof.
  refine (search_reply_not_object unit bare_service "Doge" (start tt)
            (PDict []) bare_candidates tt tt _ _ _ _ _).
  - exists (json_reply (PDict [])). split; reflexivity.
  - apply no_entry. reflexivity.
  - exists (json_reply bare_candidates). split; reflexivity.
  - reflexivity.
  - reflexivity.
Defined.

(** The price data maps "bitcoin" to [null]. *)
Lemma scalar_entry_witness :
  (exists details,
      fst (crypto_price script "bitcoin" (start [null_entry]))
      = ErrorResult ("An unexpected error occurred: " ++ details))
  /\ requested (snd (crypto_price script "bitcoin" (start [null_entry])))
     = [price_url "bitcoin"].
Proof.
  refine (scalar_entry (list (result Response)) script "bitcoin"
            (start [null_entry]) [("bitcoin", PNone)] PNone [] _ _ _).
  - exists null_entry. split; reflexivity.
  - reflexivity.
  - reflexivity.
Defined.

(** The identifier 74 is asked for as "74" and looked up as a number. *)
Lemma scalar_id_finds_no_price_witness :
  lookup "74" numbered_prices = Some (PDict [("usd", PInt 1)])
  /\ fst (crypto_price numbered_service "Doge" (start tt))
     = ErrorResult "Could not find price for Doge."
  /\ requested (snd (crypto_price numbered_service "Doge" (start tt)))
     = [price_url "doge"; search_url "Doge"; price_url "74"].
Proof.
  split; [reflexivity|].
  refine (scalar_id_finds_no_price unit numbered_service "Doge" (start tt)
            (PDict []) (PInt 74) numbered_candidates [("id", PInt 74)]
            numbered_prices [] tt tt tt _ _ _ _ _ _ _).
  - exists (json_reply (PDict [])). split; reflexivity.
  - apply no_entry. reflexivity.
  - exists (json_reply (PDict numbered_candidates)). split; reflexivity.
  - reflexivity.
  - reflexivity.
  - reflexivity.
  - exists (json_reply (PDict numbered_prices)). split; reflexivity.
Defined.

(** The identifier [[]] is asked for as "[]" and cannot be looked up. *)
Lemma container_id_witness :
  (exists details,
      fst (crypto_price listed_service "Doge" (start tt))
      = ErrorResult ("An unexpected error occurred: " ++ details))
  /\ requested (snd (crypto_price listed_service "Doge" (start tt)))
     = [price_url "doge"; search_url "Doge"; price_url "[]"].
Proof.
  refine (container_id unit listed_service "Doge" (start tt)
            (PDict []) (PList []) listed_candidates [("id", PList [])]
            [] [] tt tt tt _ _ _ _ _ _ _).
  - exists (json_reply (PDict [])). split; reflexivity.
  - apply no_entry. reflexivity.
  - exists (json_reply (PDict listed_candidates)). split; reflexivity.
  - reflexivity.
  - reflexivity.
  - reflexivity.
  - exists (json_reply (PDict [])). split; reflexivity.
Defined.

(** The candidate for "Doge" is known, its price is not. *)
Lemma no_price_is_third_miss_witness :
  exists r1 r2 r3 search_data id price_data,
    exchanges (snd (crypto_price unpriced_service "Doge" (start tt)))
    = (exchanges (start tt)
         ++ [(price_url (str_lower "Doge"), r1);
             (search_url "Doge", r2);
             (price_url (py_str id), r3)])%list /\
    payload r2 = Ok search_data /\
    first_candidate search_data = Ok id /\
    payload r3 = Ok price_data /\
    has_usd id price_data = Ok false.
Proof.
  refine (no_price_is_third_miss unit unpriced_service "Doge" (start tt) _).
  reflexivity.
Defined.

(** "Bitcoin" and "BITCOIN" get the same price. *)
Lemma same_lowercase_same_direct_price_witness :
  fst (crypto_price bitcoin_service "Bitcoin" (start tt))
    = PriceResult "Bitcoin" "$65000 USD"
  /\ fst (crypto_price bitcoin_service "BITCOIN" (start tt))
    = PriceResult "BITCOIN" "$65000 USD"
  /\ snd (crypto_price bitcoin_service "Bitcoin" (start tt))
     = snd (crypto_price bitcoin_service "BITCOIN" (start tt)).
Proof.
  refine (same_lowercase_same_direct_price unit bitcoin_service
            "Bitcoin" "BITCOIN" (start tt) bitcoin_prices
            [("usd", PInt 65000)] (PInt 65000) tt _ _ _ _).
  - reflexivity.
  - exists (json_reply (PDict bitcoin_prices)). split; reflexivity.
  - reflexivity.
  - reflexivity.
Defined.

End Lookup.
